(** * book_search_api: ISBN conversion and provider clients

    A shallow embedding of [src/book_search_api/book_search_api.py].

    The definitions come first:
    - [Py]: the pieces of the Python runtime the module relies on (strings as
      sequences of code points, [str.isdecimal], [int], [str], slices,
      exceptions);
    - the ISBN converter: [only_number], [isbn10_to_isbn13],
      [isbn13_to_isbn10] and [calc_both_isbn];
    - the provider clients: [Http], the [World] they talk to and the four
      classes with their [isbn_search];
    - the formulas of the specification the code is compared with.

    The theorems follow, in the order of the source. *)

From Stdlib Require Import Ascii String DecimalString.
From Stdlib Require Import ZArith NArith List Bool Lia.
Import ListNotations.

Local Open Scope Z_scope.

(* ================================================================= *)
(** * The Python runtime *)
(* ================================================================= *)

Module Py.

(** A Python [str] is a sequence of Unicode code points. *)
Definition char := N.
Definition str := list char.

(** String literals of the source, written in ASCII. *)
Definition lit (s : String.string) : str :=
  map N_of_ascii (list_ascii_of_string s).

(** The messages of the exceptions the module raises, one per [raise]
    statement, the one [int] raises on a non-numeric literal and the one
    [str] raises on an integer with too many digits. *)
Inductive message : Type :=
| isbn10_length_message (isbn10 : str)
    (* f"ISBN10の長さが不正です. isnb_10={isbn10}" *)
| isbn13_format_message (isbn13 : str)
    (* f"ISBN13のフォーマットが不正です. isbn_13={isbn13}" *)
| not_str_or_int_message
    (* "ISBNは文字列か数値で指定してください" *)
| digit_count_message
    (* "ISBNの桁数が不正です" *)
| invalid_literal_message (literal : str)
    (* invalid literal for int() with base 10 *)
| int_max_str_digits_message.
    (* Exceeds the limit (4300 digits) for integer string conversion *)

Inductive exn : Type :=
| IndexError
| ValueError (m : message)
| JSONDecodeError
| ExpatError.

(** The outcome of a call: a returned value or a raised exception. *)
Inductive result (A : Type) : Type :=
| Ok (a : A)
| Raise (e : exn).
Arguments Ok {A} a.
Arguments Raise {A} e.

Definition bind {A B} (r : result A) (k : A -> result B) : result B :=
  match r with
  | Ok a => k a
  | Raise e => Raise e
  end.

(** ** Decimal characters

    [str.isdecimal] holds of the characters of Unicode category Nd.  They
    come in runs of ten consecutive code points, digit zero first;
    [decimal_zeros] lists the zero of every run (Unicode 15.0). *)
Definition decimal_zeros : list N :=
  [ 0x30; 0x660; 0x6F0; 0x7C0; 0x966; 0x9E6; 0xA66; 0xAE6; 0xB66; 0xBE6;
    0xC66; 0xCE6; 0xD66; 0xDE6; 0xE50; 0xED0; 0xF20; 0x1040; 0x1090;
    0x17E0; 0x1810; 0x1946; 0x19D0; 0x1A80; 0x1A90; 0x1B50; 0x1BB0;
    0x1C40; 0x1C50; 0xA620; 0xA8D0; 0xA900; 0xA9D0; 0xA9F0; 0xAA50;
    0xABF0; 0xFF10; 0x104A0; 0x10D30; 0x11066; 0x110F0; 0x11136; 0x111D0;
    0x112F0; 0x11450; 0x114D0; 0x11650; 0x116C0; 0x11730; 0x118E0;
    0x11950; 0x11C50; 0x11D50; 0x11DA0; 0x11F50; 0x16A60; 0x16AC0;
    0x16B50; 0x1D7CE; 0x1D7D8; 0x1D7E2; 0x1D7EC; 0x1D7F6; 0x1E140;
    0x1E2F0; 0x1E4F0; 0x1E950; 0x1FBF0 ]%N.

(** The zero of the run a character belongs to, if it is a decimal. *)
Definition decimal_zero (c : char) : option N :=
  find (fun z => (z <=? c)%N && (c <? z + 10)%N) decimal_zeros.

(** [str.isdecimal] on a one-character string. *)
Definition isdecimal (c : char) : bool :=
  match decimal_zero c with
  | Some _ => true
  | None => false
  end.

(** [int(c)] on a one-character string: the value of a decimal character,
    [ValueError] on any other character. *)
Definition int (c : char) : result Z :=
  match decimal_zero c with
  | Some z => Ok (Z.of_N (c - z))
  | None => Raise (ValueError (invalid_literal_message [c]))
  end.

(** The character of the literal ["X"]. *)
Definition char_X : char := 88%N.

(** ** Values *)

(** The arguments the functions are called with.  [bool] is a subclass of
    [int] in Python; any other object is represented by what [str()] does
    on it: the string it returns or the exception it raises. *)
Inductive object : Type :=
| PyStr (s : str)
| PyInt (z : Z)
| PyBool (b : bool)
| PyOther (rendering : result str).

Definition isinstance_int (o : object) : bool :=
  match o with
  | PyInt _ | PyBool _ => true
  | _ => false
  end.

Definition isinstance_str (o : object) : bool :=
  match o with
  | PyStr _ => true
  | _ => false
  end.

(** The decimal numeral of an integer, with a sign when negative. *)
Definition numeral (z : Z) : str :=
  lit (NilZero.string_of_int (Z.to_int z)).

(** [sys.get_int_max_str_digits()], as the interpreter starts. *)
Definition int_max_str_digits : nat := 4300.

(** [str(z)] for an integer: its numeral, and [ValueError] when that has
    more digits than the limit, the sign not counted. *)
Definition str_of_int (z : Z) : result str :=
  if (length (numeral (Z.abs z)) <=? int_max_str_digits)%nat then
    Ok (numeral z)
  else Raise (ValueError int_max_str_digits_message).

(** The builtin [str()], which an f-string applies to what it formats. *)
Definition str_of (o : object) : result str :=
  match o with
  | PyStr s => Ok s
  | PyInt z => str_of_int z
  | PyBool true => Ok (lit "True")
  | PyBool false => Ok (lit "False")
  | PyOther rendering => rendering
  end.

(** ** Indexing and slices *)

(** [s[-1]]: the last character, [IndexError] on the empty string. *)
Definition getitem_last (s : str) : result char :=
  match rev s with
  | [] => Raise IndexError
  | c :: _ => Ok c
  end.

(** [s[start:-1]]; [s[:-1]] is [slice_to_last 0 s]. *)
Definition slice_to_last (start : nat) (s : str) : str :=
  skipn start (firstn (length s - 1) s).

(** [s.startswith(prefix)]. *)
Fixpoint startswith (s prefix : str) {struct prefix} : bool :=
  match prefix, s with
  | [], _ => true
  | p :: prefix', c :: s' => (c =? p)%N && startswith s' prefix'
  | _ :: _, [] => false
  end.

(** ** Loops *)

(** [enumerate(l)], counting from [i]. *)
Fixpoint enumerate_from {A} (i : Z) (l : list A) : list (Z * A) :=
  match l with
  | [] => []
  | x :: l' => (i, x) :: enumerate_from (i + 1) l'
  end.

Definition enumerate {A} (l : list A) : list (Z * A) := enumerate_from 0 l.

(** A [for] loop updating one variable; the body may raise. *)
Fixpoint for_each {A S} (l : list A) (s : S) (body : S -> A -> result S)
  : result S :=
  match l with
  | [] => Ok s
  | x :: l' => bind (body s x) (fun s' => for_each l' s' body)
  end.

End Py.

Import Py.

Notation "x <- e ;; k" := (bind e (fun x => k))
  (at level 61, e at next level, right associativity).

(* ================================================================= *)
(** * The ISBN converter *)
(* ================================================================= *)

(** [only_number]: keep the decimal characters, and a final ["X"]. *)
Definition only_number (number : str) : result str :=
  c <- getitem_last number ;;
  if (c =? char_X)%N (* number[-1] == "X" *) then
    let number := slice_to_last 0 number in
    let last := lit "X" in
    Ok (filter isdecimal number ++ last)
  else
    let last := lit "" in
    Ok (filter isdecimal number ++ last).

(** The weight of position [i] in the ISBN-13 checksum loop:
    [1 if i % 2 == 0 else 3]. *)
Definition weight13 (i : Z) : Z := if i mod 2 =? 0 then 1 else 3.

(** The weight of position [i] in the ISBN-10 checksum loop: [10 - i]. *)
Definition weight10 (i : Z) : Z := 10 - i.

(** The checksum loop shared by both converters:
    [for i, digit in enumerate(body): check_digit += int(digit) * weight]. *)
Definition checksum_loop (weight : Z -> Z) (body : str) : result Z :=
  for_each (enumerate body) 0
    (fun check_digit '(i, digit) =>
       d <- int digit ;;
       Ok (check_digit + d * weight i)).

Definition isbn10_to_isbn13 (isbn10 : object) : result str :=
  isbn10 <- str_of isbn10 ;;
  isbn10 <- only_number isbn10 ;;
  if negb (length isbn10 =? 10)%nat then
    Raise (ValueError (isbn10_length_message isbn10))
  else
    let isbn13_body := lit "978" ++ slice_to_last 0 isbn10 in
    check_digit <- checksum_loop weight13 isbn13_body ;;
    let check_digit := (10 - (check_digit mod 10)) mod 10 in
    check_digit <- str_of (PyInt check_digit) ;;
    Ok (isbn13_body ++ check_digit).

Definition isbn13_to_isbn10 (isbn13 : object) : result str :=
  isbn13 <- str_of isbn13 ;;
  isbn13 <- only_number isbn13 ;;
  if negb (length isbn13 =? 13)%nat || negb (startswith isbn13 (lit "978")) then
    Raise (ValueError (isbn13_format_message isbn13))
  else
    let isbn10_body := slice_to_last 3 isbn13 in
    check_digit <- checksum_loop weight10 isbn10_body ;;
    let check_digit := (11 - (check_digit mod 11)) mod 11 in
    let check_digit :=
      if check_digit =? 10 then PyStr (lit "X") else PyInt check_digit in
    check_digit <- str_of check_digit ;;
    Ok (isbn10_body ++ check_digit).

Definition calc_both_isbn (isbn : object) : result (str * str) :=
  isbn <- (if isinstance_int isbn then str_of isbn
           else if negb (isinstance_str isbn) then
             Raise (ValueError not_str_or_int_message)
           else str_of isbn (* a string, as it is *)) ;;
  isbn_number <- only_number isbn ;;
  if (length isbn_number =? 10)%nat then
    let isbn10 := isbn_number in
    isbn13 <- isbn10_to_isbn13 (PyStr isbn10) ;;
    Ok (isbn10, isbn13)
  else if (length isbn_number =? 13)%nat then
    let isbn13 := isbn_number in
    isbn10 <- isbn13_to_isbn10 (PyStr isbn13) ;;
    Ok (isbn10, isbn13)
  else
    Raise (ValueError digit_count_message).

(** The error classes of the specification: [InvalidFormat] is raised for a
    wrong length or prefix, [InvalidArgument] for an argument that is neither
    a string nor an integer. *)
Definition InvalidFormat (e : exn) : Prop :=
  match e with
  | ValueError (isbn10_length_message _) => True
  | ValueError (isbn13_format_message _) => True
  | ValueError digit_count_message => True
  | _ => False
  end.

Definition InvalidArgument (e : exn) : Prop :=
  e = ValueError not_str_or_int_message.

(* ================================================================= *)
(** * The provider clients *)
(* ================================================================= *)

Module Http.

(** What [requests.get] is called with. *)
Record request (seconds : Type) : Type := {
  url : str;
  params : list (str * object);
  timeout : seconds;
}.
Arguments url {seconds} r.
Arguments params {seconds} r.
Arguments timeout {seconds} r.

(** What [requests.get] does: it raises [requests.exceptions.Timeout],
    [requests.exceptions.ConnectionError] or something else, or it returns a
    response. *)
Inductive outcome : Type :=
| Timeout
| ConnectionError
| OtherException
| Response (status_code : Z) (text : str).

End Http.

(** The world outside the module: the network, which answers a request, and
    the parsers of [requests] and [xmltodict], which fail on a body that is
    not well formed. *)
Class World : Type := {
  seconds : Type;
  one_second : seconds;  (* the default [timeout=1] *)
  document : Type;
  requests_get : Http.request seconds -> Http.outcome;
  response_json : str -> option document;
  xmltodict_parse : str -> option document;
}.

(** What a call does besides returning: calls of [requests.get], each with
    its request, and lines logged. *)
Inductive event `{World} : Type :=
| Get (r : Http.request seconds)
| LoggerInfo (m : str)
| LoggerError (m : str).

(** The state of a client object, as [__init__] sets it. *)
Record client `{World} : Type := {
  base_url : str;
  timeout : seconds;
  verbose : bool;
}.

(** A method runs to the events it causes, in order, and to what it
    returns or raises. *)
Definition io `{World} (A : Type) : Type := list event * result A.

Definition io_ret `{World} {A} (a : A) : io A := ([], Ok a).

Definition io_bind `{World} {A B} (m : io A) (k : A -> io B) : io B :=
  match snd m with
  | Ok a => (fst m ++ fst (k a), snd (k a))
  | Raise e => (fst m, Raise e)
  end.

(** One event. *)
Definition emit `{World} (e : event) : io unit := ([e], Ok tt).

(** An expression without events, which may raise. *)
Definition eval `{World} {A} (r : result A) : io A := ([], r).

Notation "x <~ m ;; k" := (io_bind m (fun x => k))
  (at level 61, m at next level, right associativity).

Section Lookup.
Context `{World}.

(** [if self.verbose: logger.info(message)]; the message is built, which
    an f-string may fail to do, only when the client is verbose. *)
Definition logger_info (self : client) (message : result str) : io unit :=
  if verbose self then
    m <~ eval message ;;
    emit (LoggerInfo m)
  else io_ret tt.

(** [if self.verbose: logger.error(message)] *)
Definition logger_error (self : client) (message : str) : io unit :=
  if verbose self then emit (LoggerError message) else io_ret tt.

(** The [try] statement the five lookup methods share, and what follows
    it.  [request] stands for the arguments of [requests.get], which are
    evaluated inside the [try]: an exception there is one of the bare
    [except].  [parse] is [response.json()] or
    [xmltodict.parse(response.text)], called after the [try]. *)
Definition get_and_parse (self : client)
    (request : result (Http.request seconds))
    (parse : str -> result document)
  : io (option document) :=
  match request with
  | Raise _ =>
      _ <~ logger_error self (lit "Unknown error") ;;
      io_ret None
  | Ok r =>
      _ <~ emit (Get r) ;;
      match requests_get r with
      | Http.Timeout =>
          _ <~ logger_error self (lit "Request timed out") ;;
          io_ret None
      | Http.ConnectionError =>
          _ <~ logger_error self (lit "Connection error") ;;
          io_ret None
      | Http.OtherException =>
          _ <~ logger_error self (lit "Unknown error") ;;
          io_ret None
      | Http.Response status_code text =>
          if status_code =? 200 then
            _ <~ logger_info self (Ok (lit "Request succeeded")) ;;
            d <~ eval (parse text) ;;
            io_ret (Some d)
          else
            _ <~ logger_error self (lit "Request failed") ;;
            io_ret None
      end
  end.

(** [response.json()] *)
Definition json (text : str) : result document :=
  match response_json text with
  | Some d => Ok d
  | None => Raise JSONDecodeError
  end.

(** [xmltodict.parse(response.text)] *)
Definition xml (text : str) : result document :=
  match xmltodict_parse text with
  | Some d => Ok d
  | None => Raise ExpatError
  end.

End Lookup.

Module OpenLibraryAPI.
Section Methods.
Context `{World}.

(** [__init__(self, timeout=1, verbose=False)] *)
Definition init (timeout : option seconds) (verbose : option bool) : client :=
  {| base_url := lit "https://openlibrary.org";
     timeout := match timeout with Some t => t | None => one_second end;
     verbose := match verbose with Some b => b | None => false end |}.

Definition isbn_search (self : client) (isbn : object)
  : io (option document) :=
  _ <~ logger_info self
         (s <- str_of isbn ;; Ok (lit "Searching for book with ISBN: " ++ s)) ;;
  get_and_parse self
    (s <- str_of isbn ;;
     Ok {| Http.url := base_url self ++ lit "/isbn/" ++ s ++ lit ".json";
           Http.params := [];
           Http.timeout := timeout self |})
    json.

Definition author_search (self : client) (author_key : object)
  : io (option document) :=
  _ <~ logger_info self
         (s <- str_of author_key ;;
          Ok (lit "Searching for books by author: " ++ s)) ;;
  get_and_parse self
    (s <- str_of author_key ;;
     Ok {| Http.url := base_url self ++ s ++ lit ".json";
           Http.params := [];
           Http.timeout := timeout self |})
    json.

End Methods.
End OpenLibraryAPI.

Module GoogleBooksAPI.
Section Methods.
Context `{World}.

(** [__init__(self, timeout=1, verbose=False)] *)
Definition init (timeout : option seconds) (verbose : option bool) : client :=
  {| base_url := lit "https://www.googleapis.com/books/v1";
     timeout := match timeout with Some t => t | None => one_second end;
     verbose := match verbose with Some b => b | None => false end |}.

Definition isbn_search (self : client) (isbn : object)
  : io (option document) :=
  _ <~ logger_info self
         (s <- str_of isbn ;; Ok (lit "Searching for book with ISBN: " ++ s)) ;;
  get_and_parse self
    (s <- str_of isbn ;;
     Ok {| Http.url := base_url self ++ lit "/volumes?q=isbn:" ++ s;
           Http.params := [];
           Http.timeout := timeout self |})
    json.

End Methods.
End GoogleBooksAPI.

Module NDLAPI.
Section Methods.
Context `{World}.

(** [__init__(self, timeout=1, verbose=False)] *)
Definition init (timeout : option seconds) (verbose : option bool) : client :=
  {| base_url := lit "https://iss.ndl.go.jp/api/sru";
     timeout := match timeout with Some t => t | None => one_second end;
     verbose := match verbose with Some b => b | None => false end |}.

(** The double quote of [f'isbn="{isbn}"']. *)
Definition quote : str := [34%N].

(** The dictionary [params] is built before the [try]. *)
Definition isbn_search (self : client) (isbn : object)
  : io (option document) :=
  _ <~ logger_info self
         (s <- str_of isbn ;; Ok (lit "Searching for book with ISBN: " ++ s)) ;;
  params <~ eval
    (s <- str_of isbn ;;
     Ok [ (lit "operation", PyStr (lit "searchRetrieve"));
          (lit "query", PyStr (lit "isbn=" ++ quote ++ s ++ quote));
          (lit "recordPacking", PyStr (lit "xml")) ]) ;;
  get_and_parse self
    (Ok {| Http.url := base_url self;
           Http.params := params;
           Http.timeout := timeout self |})
    xml.

End Methods.
End NDLAPI.

Module OpenBDAPI.
Section Methods.
Context `{World}.

(** [__init__(self, timeout=1, verbose=False)] *)
Definition init (timeout : option seconds) (verbose : option bool) : client :=
  {| base_url := lit "https://api.openbd.jp/v1";
     timeout := match timeout with Some t => t | None => one_second end;
     verbose := match verbose with Some b => b | None => false end |}.

(** The ISBN is handed to [requests.get] as it is, in [params]. *)
Definition isbn_search (self : client) (isbn : object)
  : io (option document) :=
  _ <~ logger_info self
         (s <- str_of isbn ;; Ok (lit "Searching for book with ISBN: " ++ s)) ;;
  get_and_parse self
    (Ok {| Http.url := base_url self ++ lit "/get";
           Http.params := [(lit "isbn", isbn)];
           Http.timeout := timeout self |})
    json.

End Methods.
End OpenBDAPI.

(** The four providers, and the [isbn_search] and the parser of each. *)
Inductive provider : Type := OpenLibrary | GoogleBooks | NDL | OpenBD.

Definition isbn_search_of `{World} (p : provider)
  : client -> object -> io (option document) :=
  match p with
  | OpenLibrary => OpenLibraryAPI.isbn_search
  | GoogleBooks => GoogleBooksAPI.isbn_search
  | NDL => NDLAPI.isbn_search
  | OpenBD => OpenBDAPI.isbn_search
  end.

(** The requests a call handed to [requests.get], in order. *)
Definition requests_sent `{World} (trace : list event)
  : list (Http.request seconds) :=
  flat_map (fun e => match e with Get r => [r] | _ => [] end) trace.

(* ================================================================= *)
(** * The specification's formulas *)
(* ================================================================= *)

(** The definitions of this part follow the words of the specification;
    the theorems compare them with the code above. *)

(** The value of a decimal character. *)
Definition digit_value (c : char) : Z :=
  match decimal_zero c with
  | Some z => Z.of_N (c - z)
  | None => 0
  end.

(** The character of a decimal digit. *)
Definition digit_char (d : Z) : char := Z.to_N (48 + d).

(** The sum over the positions [i] of [ds] of digit [i] times [w i]. *)
Definition weighted_sum (w : nat -> Z) (ds : list Z) : Z :=
  fold_right Z.add 0 (map (fun i => nth i ds 0 * w i) (seq 0 (length ds))).

(** Section 4.2, step 4: weight 1 at even positions and 3 at odd ones;
    check digit [(10 - (sum mod 10)) mod 10]. *)
Definition spec_isbn13_check_digit (body : str) : Z :=
  let S := weighted_sum (fun i => if Nat.even i then 1 else 3)
             (map digit_value body) in
  (10 - S mod 10) mod 10.

(** Section 4.3, step 4: weight [10 - position]; check digit
    [(11 - (sum mod 11)) mod 11]. *)
Definition spec_isbn10_check_digit (body : str) : Z :=
  let S := weighted_sum (fun i => 10 - Z.of_nat i) (map digit_value body) in
  (11 - S mod 11) mod 11.

(** Section 4.3, step 5: ten is rendered as [X], any other value as a
    decimal digit. *)
Definition spec_isbn10_check_char (body : str) : char :=
  let c := spec_isbn10_check_digit body in
  if c =? 10 then char_X else digit_char c.

(** The normalization of an argument: [only_number(str(x))]. *)
Definition normalization (x : object) : result str :=
  s <- str_of x ;;
  only_number s.

(** The characters at positions [a] through [b], both included. *)
Definition positions (a b : nat) (s : str) : str :=
  firstn (b + 1 - a) (skipn a s).

(** A string whose normalization is a valid ISBN-10: ten characters, the
    last of which is the check character of the nine before it. *)
Definition normalizes_to_valid_isbn10 (x : str) : Prop :=
  exists n, only_number x = Ok n /\ length n = 10%nat /\
            forallb isdecimal (firstn 9 n) = true /\
            nth_error n 9 = Some (spec_isbn10_check_char (firstn 9 n)).

(** The shape of a normalized string: decimal characters, and possibly a
    final [X]. *)
Inductive normal : str -> Prop :=
| normal_digits (ds : str) :
    forallb isdecimal ds = true -> normal ds
| normal_X (ds : str) :
    forallb isdecimal ds = true -> normal (ds ++ [char_X]).

(** Section 8, the round trip: [isbn13_to_isbn10(isbn10_to_isbn13(x))]. *)
Definition round_trip (x : str) : result str :=
  isbn13 <- isbn10_to_isbn13 (PyStr x) ;;
  isbn13_to_isbn10 (PyStr isbn13).

(** Section 8, the normalizer applied twice:
    [only_number(only_number(s))]. *)
Definition only_number_twice (s : str) : result str :=
  n <- only_number s ;;
  only_number n.

(** Section 4.4: the string that is normalized.  A string is taken as it
    is and an integer in its decimal form, which [str] may fail to build
    ([True] and [False] are the integers 1 and 0); there is none for an
    argument of another type. *)
Definition coerced (isbn : object) : option (result str) :=
  match isbn with
  | PyStr s => Some (Ok s)
  | PyInt z => Some (str_of_int z)
  | PyBool b => Some (str_of_int (if b then 1 else 0))
  | PyOther _ => None
  end.

(** Section 4.4, after the coercion: [s] is normalized, and an exception of
    [only_number] is raised as it is; ten characters are an ISBN-10,
    returned with its ISBN-13; thirteen characters that start with ["978"]
    are an ISBN-13, returned after its ISBN-10; anything else is an
    [InvalidFormat]. *)
Definition calc_both_isbn_on (isbn : object) (s : str) : Prop :=
  match only_number s with
  | Raise e => calc_both_isbn isbn = Raise e
  | Ok n =>
      if (length n =? 10)%nat then
        exists isbn13,
          isbn10_to_isbn13 (PyStr n) = Ok isbn13 /\
          calc_both_isbn isbn = Ok (n, isbn13)
      else if (length n =? 13)%nat && startswith n (lit "978") then
        exists isbn10,
          isbn13_to_isbn10 (PyStr n) = Ok isbn10 /\
          calc_both_isbn isbn = Ok (isbn10, n)
      else
        exists e, calc_both_isbn isbn = Raise e /\ InvalidFormat e
  end.

(** ** Check digits, read back *)

(** The value of a character of an ISBN-10: ten for [X]. *)
Definition isbn10_char_value (c : char) : Z :=
  if (c =? char_X)%N then 10 else digit_value c.

(** The test an ISBN-13 passes: its thirteen digits, weighted 1 and 3 in
    turn, add up to a multiple of ten. *)
Definition isbn13_checksum_ok (isbn13 : str) : bool :=
  weighted_sum (fun i => if Nat.even i then 1 else 3)
    (map digit_value isbn13) mod 10 =? 0.

(** The test an ISBN-10 passes: its ten characters, weighted 10 down to 1,
    add up to a multiple of eleven. *)
Definition isbn10_checksum_ok (isbn10 : str) : bool :=
  weighted_sum (fun i => 10 - Z.of_nat i)
    (map isbn10_char_value isbn10) mod 11 =? 0.

(** The round trip that starts from an ISBN-13:
    [isbn10_to_isbn13(isbn13_to_isbn10(y))]. *)
Definition round_trip_13 (y : str) : result str :=
  isbn10 <- isbn13_to_isbn10 (PyStr y) ;;
  isbn10_to_isbn13 (PyStr isbn10).

(** ** The lookup methods *)

(** Section 4.5, what a lookup returns for the request [r] it sent: null
    when the request raises and when the status is not 200; the parsed body
    when the status is 200, XML for the National Diet Library and JSON for
    the others.  A body that does not parse is an exception of the
    parser. *)
Definition answer `{World} (p : provider) (r : Http.request seconds)
  : result (option document) :=
  match requests_get r with
  | Http.Timeout | Http.ConnectionError | Http.OtherException => Ok None
  | Http.Response status_code text =>
      if status_code =? 200 then
        match p with
        | NDL =>
            match xmltodict_parse text with
            | Some d => Ok (Some d)
            | None => Raise ExpatError
            end
        | OpenLibrary | GoogleBooks | OpenBD =>
            match response_json text with
            | Some d => Ok (Some d)
            | None => Raise JSONDecodeError
            end
        end
      else Ok None
  end.

(** The five lookup methods of the four classes. *)
Inductive lookup : Type :=
| isbn_search_at (p : provider)
| author_search_at_OpenLibrary.

Definition call `{World} (m : lookup)
  : client -> object -> io (option document) :=
  match m with
  | isbn_search_at p => isbn_search_of p
  | author_search_at_OpenLibrary => OpenLibraryAPI.author_search
  end.

(** A line of the log, as opposed to a request. *)
Definition is_logged `{World} (e : event) : bool :=
  match e with
  | Get _ => false
  | LoggerInfo _ | LoggerError _ => true
  end.

(** ** A world for examples *)

(** [a == b] on strings. *)
Fixpoint str_eqb (a b : str) : bool :=
  match a, b with
  | [], [] => true
  | x :: a', y :: b' => (x =? y)%N && str_eqb a' b'
  | _, _ => false
  end.

(** The two documents of the example world: [{}] and [{'a': None}]. *)
Inductive example_document : Type := EmptyObject | EmptyElement.

(** A world where the network gives every request the same [answer], the
    JSON parser accepts the empty object only, and the XML parser the empty
    element [a] only. *)
Definition example_world (answer : Http.outcome) : World :=
  {| seconds := Z;
     one_second := 1;
     document := example_document;
     requests_get := fun _ => answer;
     response_json := fun text =>
       if str_eqb text (lit "{}") then Some EmptyObject else None;
     xmltodict_parse := fun text =>
       if str_eqb text (lit "<a/>") then Some EmptyElement else None |}.

(* ================================================================= *)
(** * The runtime: characters and numerals *)
(* ================================================================= *)

Lemma isdecimal_X : isdecimal char_X = false.
Proof. reflexivity. Qed.

Lemma digit_cases (d : Z) :
  0 <= d < 10 ->
  d = 0 \/ d = 1 \/ d = 2 \/ d = 3 \/ d = 4 \/
  d = 5 \/ d = 6 \/ d = 7 \/ d = 8 \/ d = 9.
Proof. lia. Qed.

Ltac each_digit d H :=
  destruct (digit_cases d H) as
    [-> | [-> | [-> | [-> | [-> | [-> | [-> | [-> | [-> | ->]]]]]]]]].

Lemma isdecimal_digit_char (d : Z) :
  0 <= d < 10 -> isdecimal (digit_char d) = true.
Proof. intros H. each_digit d H; reflexivity. Qed.

Lemma digit_char_not_X (d : Z) :
  0 <= d < 10 -> (digit_char d =? char_X)%N = false.
Proof. intros H. each_digit d H; reflexivity. Qed.

Lemma str_of_digit (d : Z) :
  0 <= d < 10 -> str_of (PyInt d) = Ok [digit_char d].
Proof. intros H. each_digit d H; reflexivity. Qed.

Lemma int_decimal (c : char) :
  isdecimal c = true -> int c = Ok (digit_value c).
Proof.
  unfold isdecimal, int, digit_value.
  destruct (decimal_zero c); [reflexivity | discriminate].
Qed.

Lemma isdecimal_not_X (c : char) :
  isdecimal c = true -> (c =? char_X)%N = false.
Proof.
  intros H. destruct (N.eqb_spec c char_X) as [-> | _]; [| reflexivity].
  rewrite isdecimal_X in H. discriminate.
Qed.

Lemma even_of_nat (n : nat) : Z.even (Z.of_nat n) = Nat.even n.
Proof.
  induction n as [| n IH].
  - reflexivity.
  - rewrite Nat2Z.inj_succ, Z.even_succ, Nat.even_succ.
    rewrite <- Z.negb_even, <- Nat.negb_even, IH. reflexivity.
Qed.

Lemma weight13_of_nat (i : nat) :
  weight13 (Z.of_nat i) = if Nat.even i then 1 else 3.
Proof.
  unfold weight13. rewrite Zmod_even, even_of_nat.
  destruct (Nat.even i); reflexivity.
Qed.

(* ================================================================= *)
(** * Slices *)
(* ================================================================= *)

Lemma getitem_last_snoc (s : str) (c : char) :
  getitem_last (s ++ [c]) = Ok c.
Proof. unfold getitem_last. rewrite rev_app_distr. reflexivity. Qed.

Lemma slice_to_last_snoc (s : str) (c : char) :
  slice_to_last 0 (s ++ [c]) = s.
Proof.
  unfold slice_to_last. rewrite length_app. simpl.
  replace (length s + 1 - 1)%nat with (length s + 0)%nat by lia.
  rewrite firstn_app_2. simpl. apply app_nil_r.
Qed.

Lemma snoc_cases (s : str) : s = [] \/ exists s' c, s = s' ++ [c].
Proof.
  destruct s as [| a s]; [left; reflexivity | right].
  destruct (exists_last (l := a :: s)) as [s' [c E]]; [discriminate |].
  exists s', c. exact E.
Qed.

Lemma slice_to_last_firstn (s : str) (k : nat) :
  length s = S k -> slice_to_last 0 s = firstn k s.
Proof.
  intros E. unfold slice_to_last. rewrite E. simpl.
  replace (k - 0)%nat with k by lia. reflexivity.
Qed.

Lemma slice_to_last_positions (s : str) (a k : nat) :
  length s = S (S k) -> (a <= S k)%nat ->
  slice_to_last a s = positions a k s.
Proof.
  intros E Ha. unfold slice_to_last, positions. rewrite E.
  rewrite skipn_firstn_comm. f_equal. lia.
Qed.

Lemma forallb_firstn {A} (f : A -> bool) (k : nat) (l : list A) :
  forallb f l = true -> forallb f (firstn k l) = true.
Proof.
  revert k. induction l as [| a l IH]; intros [| k] H; simpl in *; auto.
  apply andb_true_iff in H as [Ha Hl]. rewrite Ha. simpl. auto.
Qed.

Lemma forallb_skipn {A} (f : A -> bool) (k : nat) (l : list A) :
  forallb f l = true -> forallb f (skipn k l) = true.
Proof.
  revert k. induction l as [| a l IH]; intros [| k] H; simpl in *; auto.
  apply andb_true_iff in H as [_ Hl]. auto.
Qed.

(* ================================================================= *)
(** * The normalizer *)
(* ================================================================= *)

Lemma only_number_nil : only_number [] = Raise IndexError.
Proof. reflexivity. Qed.

Lemma only_number_snoc (s : str) (c : char) :
  only_number (s ++ [c]) =
  Ok (if (c =? char_X)%N then filter isdecimal s ++ [char_X]
      else filter isdecimal (s ++ [c])).
Proof.
  unfold only_number. rewrite getitem_last_snoc. simpl.
  destruct (c =? char_X)%N.
  - rewrite slice_to_last_snoc. reflexivity.
  - rewrite app_nil_r. reflexivity.
Qed.

(** [only_number] raises on the empty string and nowhere else. *)
Lemma only_number_returns (s : str) :
  s <> [] -> exists n, only_number s = Ok n.
Proof.
  intros Hs. destruct (snoc_cases s) as [-> | [s' [c ->]]]; [easy |].
  rewrite only_number_snoc. eauto.
Qed.

Lemma only_number_normal (s n : str) :
  only_number s = Ok n -> normal n.
Proof.
  destruct (snoc_cases s) as [-> | [s' [c ->]]]; [discriminate |].
  rewrite only_number_snoc. intros E. injection E as <-.
  destruct (c =? char_X)%N.
  - apply normal_X, forallb_filter.
  - apply normal_digits, forallb_filter.
Qed.

Lemma normal_only_number (n : str) :
  normal n -> n <> [] -> only_number n = Ok n.
Proof.
  intros [ds H | ds H] Hn.
  - destruct (snoc_cases ds) as [-> | [s' [c ->]]]; [easy |].
    rewrite only_number_snoc.
    pose proof H as Hc.
    rewrite forallb_app in Hc. apply andb_true_iff in Hc as [_ Hc].
    simpl in Hc. rewrite andb_true_r in Hc.
    rewrite (isdecimal_not_X _ Hc), forallb_filter_id by exact H.
    reflexivity.
  - rewrite only_number_snoc, N.eqb_refl, forallb_filter_id by exact H.
    reflexivity.
Qed.

(** All characters of a normalized string but the last are decimal. *)
Lemma normal_body (n : str) :
  normal n -> forallb isdecimal (slice_to_last 0 n) = true.
Proof.
  intros [ds H | ds H].
  - unfold slice_to_last. simpl. apply forallb_firstn, H.
  - rewrite slice_to_last_snoc. exact H.
Qed.

Lemma normal_firstn (n : str) (k : nat) :
  normal n -> length n = S k -> forallb isdecimal (firstn k n) = true.
Proof.
  intros Hn E. rewrite <- (slice_to_last_firstn n k E).
  apply normal_body, Hn.
Qed.

(** A normalized string of the length of its source is the source. *)
Lemma only_number_same_length (s n : str) :
  only_number s = Ok n -> length n = length s -> n = s.
Proof.
  destruct (snoc_cases s) as [-> | [s' [c ->]]]; [discriminate |].
  rewrite only_number_snoc. intros E L. injection E as <-.
  assert (F : forall l : str,
             length (filter isdecimal l) = length l -> filter isdecimal l = l).
  { induction l as [| a l IH]; simpl; [reflexivity |].
    pose proof (filter_length_le isdecimal l) as B.
    destruct (isdecimal a); simpl; intros E.
    - f_equal. apply IH. lia.
    - lia. }
  destruct (c =? char_X)%N eqn:Ec.
  - apply N.eqb_eq in Ec. rewrite Ec in *.
    rewrite !length_app in L. simpl in L.
    rewrite F by lia. reflexivity.
  - apply F, L.
Qed.

(* ================================================================= *)
(** * The checksum loop *)
(* ================================================================= *)

Lemma weighted_sum_cons (w : nat -> Z) (d : Z) (ds : list Z) :
  weighted_sum w (d :: ds) = d * w 0%nat + weighted_sum (fun i => w (S i)) ds.
Proof.
  unfold weighted_sum. simpl. f_equal.
  rewrite <- seq_shift, map_map. reflexivity.
Qed.

Lemma weighted_sum_ext (w w' : nat -> Z) (ds : list Z) :
  (forall i, w i = w' i) -> weighted_sum w ds = weighted_sum w' ds.
Proof.
  intros E. unfold weighted_sum. f_equal.
  apply map_ext. intros i. rewrite E. reflexivity.
Qed.

Lemma for_each_checksum (w : Z -> Z) (body : str) :
  forallb isdecimal body = true ->
  forall (i acc : Z),
  for_each (enumerate_from i body) acc
    (fun check_digit '(i, digit) =>
       d <- int digit ;; Ok (check_digit + d * w i))
  = Ok (acc + weighted_sum (fun j => w (i + Z.of_nat j))
                (map digit_value body)).
Proof.
  induction body as [| c body IH]; intros H i acc; simpl.
  - unfold weighted_sum. simpl. f_equal. lia.
  - simpl in H. apply andb_true_iff in H as [Hc Hb].
    rewrite (int_decimal c Hc). simpl.
    rewrite (IH Hb), weighted_sum_cons. f_equal.
    rewrite Z.add_0_r, Z.add_assoc. f_equal.
    apply weighted_sum_ext. intros j. f_equal. lia.
Qed.

Lemma checksum_loop_sum (w : Z -> Z) (body : str) :
  forallb isdecimal body = true ->
  checksum_loop w body =
  Ok (weighted_sum (fun j => w (Z.of_nat j)) (map digit_value body)).
Proof.
  intros H. unfold checksum_loop, enumerate.
  rewrite (for_each_checksum w body H 0 0). reflexivity.
Qed.

Lemma checksum13 (body : str) :
  forallb isdecimal body = true ->
  checksum_loop weight13 body =
  Ok (weighted_sum (fun i => if Nat.even i then 1 else 3)
        (map digit_value body)).
Proof.
  intros H. rewrite (checksum_loop_sum _ _ H).
  rewrite (weighted_sum_ext _ _ _ weight13_of_nat). reflexivity.
Qed.

Lemma checksum10 (body : str) :
  forallb isdecimal body = true ->
  checksum_loop weight10 body =
  Ok (weighted_sum (fun i => 10 - Z.of_nat i) (map digit_value body)).
Proof. intros H. rewrite (checksum_loop_sum _ _ H). reflexivity. Qed.

Lemma spec_isbn13_check_digit_range (body : str) :
  0 <= spec_isbn13_check_digit body < 10.
Proof. unfold spec_isbn13_check_digit. apply Z.mod_pos_bound. lia. Qed.

Lemma spec_isbn10_check_digit_range (body : str) :
  0 <= spec_isbn10_check_digit body < 11.
Proof. unfold spec_isbn10_check_digit. apply Z.mod_pos_bound. lia. Qed.

(* ================================================================= *)
(** * The converters *)
(* ================================================================= *)

Lemma lit_978_decimal : forallb isdecimal (lit "978") = true.
Proof. reflexivity. Qed.

Lemma normalization_str (s : str) : normalization (PyStr s) = only_number s.
Proof. reflexivity. Qed.

Lemma normalization_normal (v : object) (n : str) :
  normalization v = Ok n -> normal n.
Proof.
  unfold normalization. destruct (str_of v) as [s | e]; [| discriminate].
  apply only_number_normal.
Qed.

(** Both converters start with the normalization of their argument. *)
Lemma isbn10_to_isbn13_unfold (v : object) :
  isbn10_to_isbn13 v =
  (isbn10 <- normalization v ;;
   if negb (length isbn10 =? 10)%nat then
     Raise (ValueError (isbn10_length_message isbn10))
   else
     let isbn13_body := lit "978" ++ slice_to_last 0 isbn10 in
     check_digit <- checksum_loop weight13 isbn13_body ;;
     let check_digit := (10 - (check_digit mod 10)) mod 10 in
     check_digit <- str_of (PyInt check_digit) ;;
     Ok (isbn13_body ++ check_digit)).
Proof.
  unfold isbn10_to_isbn13, normalization.
  destruct (str_of v); reflexivity.
Qed.

Lemma isbn13_to_isbn10_unfold (v : object) :
  isbn13_to_isbn10 v =
  (isbn13 <- normalization v ;;
   if negb (length isbn13 =? 13)%nat || negb (startswith isbn13 (lit "978"))
   then Raise (ValueError (isbn13_format_message isbn13))
   else
     let isbn10_body := slice_to_last 3 isbn13 in
     check_digit <- checksum_loop weight10 isbn10_body ;;
     let check_digit := (11 - (check_digit mod 11)) mod 11 in
     let check_digit :=
       if check_digit =? 10 then PyStr (lit "X") else PyInt check_digit in
     check_digit <- str_of check_digit ;;
     Ok (isbn10_body ++ check_digit)).
Proof.
  unfold isbn13_to_isbn10, normalization.
  destruct (str_of v); reflexivity.
Qed.

Lemma normalization_raises (v : object) (e : exn) :
  normalization v = Raise e ->
  str_of v = Raise e \/ (str_of v = Ok [] /\ e = IndexError).
Proof.
  unfold normalization. destruct (str_of v) as [s | e']; cbn [bind].
  - intros R. right. destruct (snoc_cases s) as [-> | [s' [c ->]]].
    + rewrite only_number_nil in R. injection R as <-. auto.
    + rewrite only_number_snoc in R. discriminate.
  - intros R. left. exact R.
Qed.

(** What [isbn10_to_isbn13] returns on an argument normalized to ten
    characters. *)
Lemma isbn10_to_isbn13_value (v : object) (n : str) :
  normalization v = Ok n -> length n = 10%nat ->
  isbn10_to_isbn13 v =
  Ok (lit "978" ++ firstn 9 n ++
      [digit_char (spec_isbn13_check_digit (lit "978" ++ firstn 9 n))]).
Proof.
  intros Hn E. rewrite isbn10_to_isbn13_unfold, Hn. cbn [bind].
  rewrite E. cbn [Nat.eqb negb]. rewrite (slice_to_last_firstn n 9 E).
  assert (D : forallb isdecimal (lit "978" ++ firstn 9 n) = true).
  { rewrite forallb_app, lit_978_decimal.
    apply (normal_firstn n 9 (normalization_normal _ _ Hn) E). }
  rewrite (checksum13 _ D). cbn [bind].
  change ((10 - _ mod 10) mod 10)
    with (spec_isbn13_check_digit (lit "978" ++ firstn 9 n)).
  rewrite str_of_digit by apply spec_isbn13_check_digit_range.
  cbn [bind]. rewrite <- app_assoc. reflexivity.
Qed.

Lemma isbn10_to_isbn13_wrong_length (v : object) (n : str) :
  normalization v = Ok n -> length n <> 10%nat ->
  isbn10_to_isbn13 v = Raise (ValueError (isbn10_length_message n)).
Proof.
  intros Hn E. rewrite isbn10_to_isbn13_unfold, Hn. cbn [bind].
  apply Nat.eqb_neq in E. rewrite E. reflexivity.
Qed.

(** What [isbn13_to_isbn10] returns on an argument normalized to thirteen
    characters that start with 978. *)
Lemma isbn13_to_isbn10_value (v : object) (n : str) :
  normalization v = Ok n -> length n = 13%nat ->
  startswith n (lit "978") = true ->
  isbn13_to_isbn10 v =
  Ok (positions 3 11 n ++ [spec_isbn10_check_char (positions 3 11 n)]).
Proof.
  intros Hn E P. rewrite isbn13_to_isbn10_unfold, Hn. cbn [bind].
  rewrite E, P. cbn [Nat.eqb negb orb].
  assert (D : forallb isdecimal (slice_to_last 3 n) = true).
  { apply (forallb_skipn isdecimal 3 (slice_to_last 0 n)).
    apply normal_body, (normalization_normal _ _ Hn). }
  rewrite (slice_to_last_positions n 3 11 E) in * by lia.
  rewrite (checksum10 _ D). cbn [bind].
  change ((11 - _ mod 11) mod 11)
    with (spec_isbn10_check_digit (positions 3 11 n)).
  unfold spec_isbn10_check_char.
  pose proof (spec_isbn10_check_digit_range (positions 3 11 n)) as R.
  destruct (Z.eqb_spec (spec_isbn10_check_digit (positions 3 11 n)) 10).
  - reflexivity.
  - rewrite str_of_digit by lia. reflexivity.
Qed.

Lemma isbn13_to_isbn10_wrong_length (v : object) (n : str) :
  normalization v = Ok n -> length n <> 13%nat ->
  isbn13_to_isbn10 v = Raise (ValueError (isbn13_format_message n)).
Proof.
  intros Hn E. rewrite isbn13_to_isbn10_unfold, Hn. cbn [bind].
  apply Nat.eqb_neq in E. rewrite E. reflexivity.
Qed.

Lemma isbn13_to_isbn10_wrong_prefix (v : object) (n : str) :
  normalization v = Ok n -> startswith n (lit "978") = false ->
  isbn13_to_isbn10 v = Raise (ValueError (isbn13_format_message n)).
Proof.
  intros Hn P. rewrite isbn13_to_isbn10_unfold, Hn. cbn [bind].
  rewrite P. cbn [negb]. rewrite orb_true_r. reflexivity.
Qed.

Lemma startswith_app (p r : str) : startswith (p ++ r) p = true.
Proof.
  induction p as [| c p IH]; simpl; [reflexivity |].
  rewrite N.eqb_refl, IH. reflexivity.
Qed.

Lemma snoc_nth_error (n : str) (k : nat) (c : char) :
  length n = S k -> nth_error n k = Some c -> n = firstn k n ++ [c].
Proof.
  revert k. induction n as [| a n IH]; intros k E Hc; [discriminate |].
  destruct k as [| k]; simpl in *.
  - injection Hc as ->. destruct n; [reflexivity | discriminate].
  - f_equal. apply IH; [lia | exact Hc].
Qed.

(** The ISBN-13 that [isbn10_to_isbn13] builds from nine decimal
    characters converts back to them and their ISBN-10 check character. *)
Lemma isbn13_to_isbn10_of_built (body : str) (d : Z) :
  forallb isdecimal body = true -> length body = 9%nat -> 0 <= d < 10 ->
  isbn13_to_isbn10 (PyStr (lit "978" ++ body ++ [digit_char d])) =
  Ok (body ++ [spec_isbn10_check_char body]).
Proof.
  intros D L R.
  set (y := lit "978" ++ body ++ [digit_char d]).
  assert (Ey : length y = 13%nat).
  { unfold y. rewrite !length_app, L. reflexivity. }
  assert (Ny : normalization (PyStr y) = Ok y).
  { apply normal_only_number.
    - apply normal_digits. unfold y.
      rewrite !forallb_app, lit_978_decimal, D. simpl.
      rewrite isdecimal_digit_char by exact R. reflexivity.
    - intros Z0. rewrite Z0 in Ey. discriminate. }
  rewrite (isbn13_to_isbn10_value _ y Ny Ey (startswith_app _ _)).
  assert (Pb : positions 3 11 y = body).
  { unfold positions, y.
    change (skipn 3 (lit "978" ++ body ++ [digit_char d]))
      with (body ++ [digit_char d]).
    change (11 + 1 - 3)%nat with (9 + 0)%nat. rewrite <- L.
    rewrite firstn_app_2. simpl. apply app_nil_r. }
  rewrite Pb. reflexivity.
Qed.

(** The round trip returns the normalized argument when that is a valid
    ISBN-10. *)
Lemma round_trip_normal (x n : str) :
  only_number x = Ok n -> length n = 10%nat ->
  nth_error n 9 = Some (spec_isbn10_check_char (firstn 9 n)) ->
  round_trip x = Ok n.
Proof.
  intros Hn E C. unfold round_trip.
  rewrite (isbn10_to_isbn13_value (PyStr x) n Hn E). cbn [bind].
  rewrite isbn13_to_isbn10_of_built.
  - f_equal. symmetry. apply (snoc_nth_error n 9 _ E C).
  - apply (normal_firstn n 9 (only_number_normal _ _ Hn) E).
  - rewrite length_firstn, E. reflexivity.
  - apply spec_isbn13_check_digit_range.
Qed.

(* ================================================================= *)
(** * The round trip (C1) *)
(* ================================================================= *)

(** C1 as stated fails: ["030640615-2"] has ten characters after
    normalization, nine decimal digits first and the right check digit last,
    yet the round trip returns ["0306406152"], the normalized string, and
    not the argument. *)
Lemma round_trip_drops_separators :
  normalizes_to_valid_isbn10 (lit "030640615-2") /\
  forallb isdecimal (firstn 9 (lit "030640615-2")) = true /\
  getitem_last (lit "030640615-2") =
    Ok (spec_isbn10_check_char (lit "030640615")) /\
  round_trip (lit "030640615-2") = Ok (lit "0306406152") /\
  round_trip (lit "030640615-2") <> Ok (lit "030640615-2").
Proof.
  split; [| split; [| split; [| split]]].
  - exists (lit "0306406152"). repeat split; reflexivity.
  - reflexivity.
  - reflexivity.
  - reflexivity.
  - vm_compute. discriminate.
Qed.

(** C1, amended: when the normalization [n] of [x] has ten characters, nine
    decimal digits first and their modulo-11 check character last, then
    [isbn13_to_isbn10(isbn10_to_isbn13(x))] returns [n]; and [n] is [x]
    itself when [x] has ten characters. *)
Theorem round_trip_normalized (x n : str) :
  only_number x = Ok n ->
  length n = 10%nat ->
  forallb isdecimal (firstn 9 n) = true ->
  nth_error n 9 = Some (spec_isbn10_check_char (firstn 9 n)) ->
  round_trip x = Ok n /\ (length x = 10%nat -> n = x).
Proof.
  intros Hn E _ C. split.
  - apply (round_trip_normal x n Hn E C).
  - intros Ex. apply (only_number_same_length x n Hn). congruence.
Qed.

Lemma round_trip_normalized_witness :
  round_trip (lit "080442957X") = Ok (lit "080442957X").
Proof.
  destruct (round_trip_normalized (lit "080442957X") (lit "080442957X"))
    as [R _]; [reflexivity | reflexivity | reflexivity | reflexivity |].
  exact R.
Defined.

(* ================================================================= *)
(** * ISBN-10 to ISBN-13 (C2) *)
(* ================================================================= *)

(** C2 as stated fails at its example: the check digit of [978030640615]
    is 7 (the weighted sum is 93), so [isbn10_to_isbn13("0306406152")] is
    ["9780306406157"] and not ["9780306406153"]. *)
Lemma isbn10_to_isbn13_known_vector :
  spec_isbn13_check_digit (lit "978030640615") = 7 /\
  isbn10_to_isbn13 (PyStr (lit "0306406152")) = Ok (lit "9780306406157") /\
  isbn10_to_isbn13 (PyStr (lit "0306406152")) <> Ok (lit "9780306406153").
Proof.
  split; [| split].
  - reflexivity.
  - reflexivity.
  - vm_compute. discriminate.
Qed.

(** C2, amended: on an argument whose normalization [n] has ten characters,
    [isbn10_to_isbn13] returns ["978"], the first nine characters of [n] and
    the check digit [(10 - (S mod 10)) mod 10] of these twelve, [S] being
    the sum of the digits weighted 1 at even and 3 at odd positions; the
    result has thirteen characters, all decimal; and
    [isbn10_to_isbn13("0306406152") == "9780306406157"]. *)
Theorem isbn10_to_isbn13_spec (v : object) (n : str) :
  normalization v = Ok n ->
  length n = 10%nat ->
  let body := lit "978" ++ firstn 9 n in
  let isbn13 := body ++ [digit_char (spec_isbn13_check_digit body)] in
  isbn10_to_isbn13 v = Ok isbn13 /\
  length isbn13 = 13%nat /\
  forallb isdecimal isbn13 = true /\
  isbn10_to_isbn13 (PyStr (lit "0306406152")) = Ok (lit "9780306406157").
Proof.
  intros Hn E body isbn13. repeat split.
  - unfold isbn13, body. rewrite <- app_assoc.
    apply (isbn10_to_isbn13_value v n Hn E).
  - unfold isbn13, body. rewrite !length_app, length_firstn, E. reflexivity.
  - unfold isbn13, body. rewrite !forallb_app, lit_978_decimal.
    rewrite (normal_firstn n 9 (normalization_normal _ _ Hn) E). simpl.
    rewrite isdecimal_digit_char by apply spec_isbn13_check_digit_range.
    reflexivity.
Qed.

Lemma isbn10_to_isbn13_spec_witness :
  isbn10_to_isbn13 (PyStr (lit "0-8044-2957-X")) = Ok (lit "9780804429573").
Proof.
  destruct (isbn10_to_isbn13_spec (PyStr (lit "0-8044-2957-X"))
              (lit "080442957X")) as [R _]; [reflexivity | reflexivity |].
  exact R.
Defined.

(* ================================================================= *)
(** * ISBN-13 to ISBN-10 (C3) *)
(* ================================================================= *)

(** C3: on an argument whose normalization [n] has thirteen characters and
    starts with ["978"], [isbn13_to_isbn10] returns the characters at
    positions 3 through 11 of [n] and the check character of these nine:
    the digit [(11 - (S mod 11)) mod 11], [S] being the sum of the digits
    weighted [10 - i], or [X] when that is ten; the result has ten
    characters; and [isbn13_to_isbn10("9780306406153") == "0306406152"]. *)
Theorem isbn13_to_isbn10_spec (v : object) (n : str) :
  normalization v = Ok n ->
  length n = 13%nat ->
  startswith n (lit "978") = true ->
  let body := positions 3 11 n in
  let c := spec_isbn10_check_digit body in
  let isbn10 := body ++ [if c =? 10 then char_X else digit_char c] in
  isbn13_to_isbn10 v = Ok isbn10 /\
  length isbn10 = 10%nat /\
  isbn13_to_isbn10 (PyStr (lit "9780306406153")) = Ok (lit "0306406152").
Proof.
  intros Hn E P body c isbn10. repeat split.
  - apply (isbn13_to_isbn10_value v n Hn E P).
  - unfold isbn10, body, positions.
    rewrite length_app, length_firstn, length_skipn, E. reflexivity.
Qed.

Lemma isbn13_to_isbn10_spec_witness :
  isbn13_to_isbn10 (PyStr (lit "978-0-8044-2957-3")) = Ok (lit "080442957X").
Proof.
  destruct (isbn13_to_isbn10_spec (PyStr (lit "978-0-8044-2957-3"))
              (lit "9780804429573")) as [R _];
    [reflexivity | reflexivity | reflexivity |].
  exact R.
Defined.

(* ================================================================= *)
(** * The normalizer (C4, C8) *)
(* ================================================================= *)

Lemma filter_nil_existsb {A} (f : A -> bool) (l : list A) :
  filter f l = [] <-> existsb f l = false.
Proof.
  induction l as [| a l IH]; simpl; [tauto |].
  destruct (f a); simpl; [| exact IH].
  split; discriminate.
Qed.

(** The normalization is empty exactly when the string has no decimal
    character and no final [X]. *)
Lemma only_number_nonempty (s n : str) :
  only_number s = Ok n ->
  (1 <= length n)%nat <->
  existsb isdecimal s = true \/ getitem_last s = Ok char_X.
Proof.
  destruct (snoc_cases s) as [-> | [s' [c ->]]]; [discriminate |].
  rewrite only_number_snoc, getitem_last_snoc. intros E. injection E as <-.
  destruct (N.eqb_spec c char_X) as [Ec | Ec].
  - rewrite length_app. simpl. split; [| lia].
    intros _. right. congruence.
  - pose proof (filter_nil_existsb isdecimal (s' ++ [c])) as F.
    destruct (filter isdecimal (s' ++ [c])) as [| a l] eqn:Ef; simpl.
    + split; [lia |]. intros [D | X].
      * rewrite (proj1 F eq_refl) in D. discriminate.
      * congruence.
    + split; [| lia]. intros _. left.
      destruct (existsb isdecimal (s' ++ [c])); [reflexivity |].
      discriminate (proj2 F eq_refl).
Qed.

(** C4 as stated fails: ["-"] has length one and normalizes to the empty
    string, on which the second call raises [IndexError]. *)
Lemma only_number_twice_raises :
  (1 <= length (lit "-"))%nat /\
  only_number (lit "-") = Ok (lit "") /\
  only_number_twice (lit "-") = Raise IndexError /\
  only_number_twice (lit "-") <> only_number (lit "-").
Proof.
  split; [simpl; lia |]. split; [reflexivity |]. split; [reflexivity |].
  vm_compute. discriminate.
Qed.

(** C4, amended: for every string [s] whose normalization is not empty,
    [only_number(only_number(s)) == only_number(s)]. *)
Theorem only_number_idempotent (s n : str) :
  only_number s = Ok n ->
  (1 <= length n)%nat ->
  only_number_twice s = only_number s.
Proof.
  intros Hn L. unfold only_number_twice. rewrite Hn. cbn [bind].
  apply normal_only_number.
  - apply (only_number_normal s n Hn).
  - intros Z0. rewrite Z0 in L. simpl in L. lia.
Qed.

Lemma only_number_idempotent_witness :
  only_number_twice (lit "0-8044-2957-X") = only_number (lit "0-8044-2957-X").
Proof.
  apply (only_number_idempotent (lit "0-8044-2957-X") (lit "080442957X")).
  - reflexivity.
  - simpl. lia.
Defined.

(** C8: on the empty string [only_number] raises [IndexError] and returns
    no value; it is the only string on which it raises. *)
Theorem only_number_empty :
  only_number (lit "") = Raise IndexError /\
  (forall n, only_number (lit "") <> Ok n) /\
  (forall s e, only_number s = Raise e -> s = lit "" /\ e = IndexError).
Proof.
  repeat split.
  - discriminate.
  - destruct (snoc_cases s) as [-> | [s' [c ->]]]; [reflexivity |].
    rewrite only_number_snoc in H. discriminate.
  - destruct (snoc_cases s) as [-> | [s' [c ->]]].
    + rewrite only_number_nil in H. congruence.
    + rewrite only_number_snoc in H. discriminate.
Qed.

(* ================================================================= *)
(** * The combined resolver (C5, C6, C7, C9) *)
(* ================================================================= *)

(** On a string or an integer, [calc_both_isbn] starts with the
    normalization of its argument. *)
Lemma calc_both_isbn_unfold (v : object) :
  isinstance_int v || isinstance_str v = true ->
  calc_both_isbn v =
  (isbn_number <- normalization v ;;
   if (length isbn_number =? 10)%nat then
     isbn13 <- isbn10_to_isbn13 (PyStr isbn_number) ;; Ok (isbn_number, isbn13)
   else if (length isbn_number =? 13)%nat then
     isbn10 <- isbn13_to_isbn10 (PyStr isbn_number) ;; Ok (isbn10, isbn_number)
   else Raise (ValueError digit_count_message)).
Proof.
  intros T. unfold calc_both_isbn, normalization.
  destruct v as [s | z | b | r]; try discriminate T;
    cbn [isinstance_int isinstance_str negb];
    destruct (str_of _); reflexivity.
Qed.

Lemma calc_both_isbn_normalized (v : object) (n : str) :
  isinstance_int v || isinstance_str v = true ->
  normalization v = Ok n ->
  calc_both_isbn v =
  if (length n =? 10)%nat then
    isbn13 <- isbn10_to_isbn13 (PyStr n) ;; Ok (n, isbn13)
  else if (length n =? 13)%nat then
    isbn10 <- isbn13_to_isbn10 (PyStr n) ;; Ok (isbn10, n)
  else Raise (ValueError digit_count_message).
Proof.
  intros T Hn. rewrite (calc_both_isbn_unfold v T), Hn. reflexivity.
Qed.

Lemma calc_both_isbn_not_normalized (v : object) (e : exn) :
  isinstance_int v || isinstance_str v = true ->
  normalization v = Raise e ->
  calc_both_isbn v = Raise e.
Proof.
  intros T Hn. rewrite (calc_both_isbn_unfold v T), Hn. reflexivity.
Qed.

(** A normalized string of ten characters is converted without error. *)
Lemma isbn10_to_isbn13_returns (n : str) :
  normal n -> length n = 10%nat ->
  exists isbn13, isbn10_to_isbn13 (PyStr n) = Ok isbn13.
Proof.
  intros Hn E. eexists. apply (isbn10_to_isbn13_value (PyStr n) n); [| exact E].
  apply (normal_only_number n Hn). intros Z0. rewrite Z0 in E. discriminate.
Qed.

Lemma calc_both_isbn_on_str_of (v : object) (s : str) :
  isinstance_int v || isinstance_str v = true ->
  str_of v = Ok s ->
  calc_both_isbn_on v s.
Proof.
  intros T Es. unfold calc_both_isbn_on.
  assert (Nv : normalization v = only_number s).
  { unfold normalization. rewrite Es. reflexivity. }
  destruct (only_number s) as [n | e] eqn:Hn.
  - rewrite (calc_both_isbn_normalized v n T Nv).
    pose proof (normalization_normal _ _ Nv) as N.
    destruct (Nat.eqb_spec (length n) 10) as [E | _].
    + destruct (isbn10_to_isbn13_returns n N E) as [isbn13 R].
      exists isbn13. rewrite R. split; reflexivity.
    + destruct (Nat.eqb_spec (length n) 13) as [E13 | _]; cbn [andb].
      * assert (Nn : normalization (PyStr n) = Ok n).
        { apply (normal_only_number n N).
          intros Z0. rewrite Z0 in E13. discriminate. }
        destruct (startswith n (lit "978")) eqn:P.
        -- eexists. rewrite (isbn13_to_isbn10_value (PyStr n) n Nn E13 P).
           split; reflexivity.
        -- rewrite (isbn13_to_isbn10_wrong_prefix (PyStr n) n Nn P).
           eexists. split; [reflexivity | exact I].
      * eexists. split; [reflexivity | exact I].
  - apply (calc_both_isbn_not_normalized v e T Nv).
Qed.

(** C5 as stated fails: on the empty string [calc_both_isbn] raises the
    [IndexError] of [only_number], which is neither of the two errors of the
    claim; and a string normalized to thirteen characters that do not start
    with ["978"] gives an error and no pair. *)
Lemma calc_both_isbn_other_outcomes :
  (calc_both_isbn (PyStr (lit "")) = Raise IndexError /\
   ~ InvalidFormat IndexError /\ ~ InvalidArgument IndexError) /\
  (normalization (PyStr (lit "979-10-90636-07-1")) =
     Ok (lit "9791090636071") /\
   length (lit "9791090636071") = 13%nat /\
   forall pair,
     calc_both_isbn (PyStr (lit "979-10-90636-07-1")) <> Ok pair).
Proof.
  split; split.
  - reflexivity.
  - split; [intros F; exact F | discriminate].
  - reflexivity.
  - split; [reflexivity |]. intros pair. vm_compute. discriminate.
Qed.

(** C5, amended: [calc_both_isbn] raises [InvalidArgument] on an argument
    that is neither a string nor an integer.  An integer is first coerced
    to its decimal string form, and the error of [str] on an integer of more
    than 4300 digits is raised as it is.  The string is then normalized by
    [only_number], whose [IndexError] on the empty string is raised as it
    is.  When the normalized length is 10 the function returns the
    normalized string with its [isbn10_to_isbn13]; when it is 13 and the
    normalized string starts with ["978"] it returns its [isbn13_to_isbn10]
    with the normalized string; in every other case it raises
    [InvalidFormat]. *)
Theorem calc_both_isbn_spec (isbn : object) :
  match coerced isbn with
  | None => exists e, calc_both_isbn isbn = Raise e /\ InvalidArgument e
  | Some (Raise e) => calc_both_isbn isbn = Raise e
  | Some (Ok s) => calc_both_isbn_on isbn s
  end.
Proof.
  destruct isbn as [s | z | b | r].
  - apply (calc_both_isbn_on_str_of (PyStr s)); reflexivity.
  - cbn [coerced]. destruct (str_of_int z) as [s | e] eqn:Ez.
    + apply (calc_both_isbn_on_str_of (PyInt z)); [reflexivity | exact Ez].
    + unfold calc_both_isbn. cbn [isinstance_int str_of]. rewrite Ez.
      reflexivity.
  - destruct b; exists (ValueError digit_count_message);
      split; [reflexivity | exact I | reflexivity | exact I].
  - eexists. split; reflexivity.
Qed.

(** The limit of [str] sits between 4300 and 4301 digits. *)
Lemma numeral_at_the_limit :
  length (numeral (10 ^ 4300 - 1)) = 4300%nat /\
  length (numeral (10 ^ 4300)) = 4301%nat.
Proof. split; vm_compute; reflexivity. Qed.

Lemma str_of_long_int :
  str_of (PyInt (10 ^ 4300)) = Raise (ValueError int_max_str_digits_message).
Proof.
  cbn [str_of]. unfold str_of_int.
  replace (Z.abs (10 ^ 4300)) with (10 ^ 4300)
    by (symmetry; apply Z.abs_eq, Z.pow_nonneg; lia).
  rewrite (proj2 numeral_at_the_limit). reflexivity.
Qed.

Example calc_both_isbn_of_long_int :
  calc_both_isbn (PyInt (10 ^ 4300)) =
  Raise (ValueError int_max_str_digits_message).
Proof.
  unfold calc_both_isbn. cbn [isinstance_int].
  rewrite str_of_long_int. reflexivity.
Qed.

Example calc_both_isbn_of_int :
  calc_both_isbn (PyInt 9780306406153) =
  Ok (lit "0306406152", lit "9780306406153").
Proof. reflexivity. Qed.

Example calc_both_isbn_of_empty :
  calc_both_isbn (PyStr (lit "")) = Raise IndexError.
Proof. reflexivity. Qed.

Example calc_both_isbn_of_979 :
  calc_both_isbn (PyStr (lit "979-10-90636-07-1")) =
  Raise (ValueError (isbn13_format_message (lit "9791090636071"))).
Proof. reflexivity. Qed.

(** C6: when the normalization of the argument has a length other than 10
    and 13, both converters raise [InvalidFormat], and so does
    [calc_both_isbn] on a string or an integer. *)
Theorem invalid_length_raises (v : object) (n : str) :
  normalization v = Ok n ->
  length n <> 10%nat ->
  length n <> 13%nat ->
  (exists e, isbn10_to_isbn13 v = Raise e /\ InvalidFormat e) /\
  (exists e, isbn13_to_isbn10 v = Raise e /\ InvalidFormat e) /\
  (isinstance_int v || isinstance_str v = true ->
   exists e, calc_both_isbn v = Raise e /\ InvalidFormat e).
Proof.
  intros Hn E10 E13. split; [| split].
  - eexists. split; [apply (isbn10_to_isbn13_wrong_length v n Hn E10) |].
    exact I.
  - eexists. split; [apply (isbn13_to_isbn10_wrong_length v n Hn E13) |].
    exact I.
  - intros T. rewrite (calc_both_isbn_normalized v n T Hn).
    apply Nat.eqb_neq in E10, E13. rewrite E10, E13.
    eexists. split; [reflexivity | exact I].
Qed.

Lemma invalid_length_raises_witness :
  (exists e, isbn10_to_isbn13 (PyStr (lit "12-345")) = Raise e /\
             InvalidFormat e) /\
  (exists e, isbn13_to_isbn10 (PyStr (lit "12-345")) = Raise e /\
             InvalidFormat e) /\
  (exists e, calc_both_isbn (PyStr (lit "12-345")) = Raise e /\
             InvalidFormat e).
Proof.
  destruct (invalid_length_raises (PyStr (lit "12-345")) (lit "12345"))
    as [A [B C]]; [reflexivity | simpl; lia | simpl; lia |].
  split; [exact A | split; [exact B | apply C; reflexivity]].
Defined.

(** C7: when the normalization of the argument has thirteen characters and
    does not start with ["978"], [isbn13_to_isbn10] raises
    [InvalidFormat]. *)
Theorem non_978_raises (v : object) (n : str) :
  normalization v = Ok n ->
  length n = 13%nat ->
  startswith n (lit "978") = false ->
  exists e, isbn13_to_isbn10 v = Raise e /\ InvalidFormat e.
Proof.
  intros Hn _ P. eexists.
  split; [apply (isbn13_to_isbn10_wrong_prefix v n Hn P) | exact I].
Qed.

Lemma non_978_raises_witness :
  exists e,
    isbn13_to_isbn10 (PyStr (lit "979-10-90636-07-1")) = Raise e /\
    InvalidFormat e.
Proof.
  apply (non_978_raises (PyStr (lit "979-10-90636-07-1"))
           (lit "9791090636071")); reflexivity.
Defined.

Lemma positions_firstn (n : str) :
  positions 3 11 n = skipn 3 (firstn 12 n).
Proof. unfold positions. apply (firstn_skipn_comm 9 3 n). Qed.

(** C9: neither converter looks at the check digit of its argument.  Two
    arguments normalized to ten characters with the same first nine get the
    same ISBN-13; two arguments normalized to thirteen characters that start
    with ["978"], with the same first twelve, get the same ISBN-10. *)
Theorem check_digit_is_ignored (v1 v2 : object) (n1 n2 : str) :
  normalization v1 = Ok n1 ->
  normalization v2 = Ok n2 ->
  (length n1 = 10%nat -> length n2 = 10%nat ->
   firstn 9 n1 = firstn 9 n2 ->
   exists isbn13,
     isbn10_to_isbn13 v1 = Ok isbn13 /\ isbn10_to_isbn13 v2 = Ok isbn13) /\
  (length n1 = 13%nat -> length n2 = 13%nat ->
   startswith n1 (lit "978") = true -> startswith n2 (lit "978") = true ->
   firstn 12 n1 = firstn 12 n2 ->
   exists isbn10,
     isbn13_to_isbn10 v1 = Ok isbn10 /\ isbn13_to_isbn10 v2 = Ok isbn10).
Proof.
  intros H1 H2. split.
  - intros E1 E2 F. eexists. split.
    + apply (isbn10_to_isbn13_value v1 n1 H1 E1).
    + rewrite F. apply (isbn10_to_isbn13_value v2 n2 H2 E2).
  - intros E1 E2 P1 P2 F. eexists. split.
    + apply (isbn13_to_isbn10_value v1 n1 H1 E1 P1).
    + rewrite (positions_firstn n1), F, <- (positions_firstn n2).
      apply (isbn13_to_isbn10_value v2 n2 H2 E2 P2).
Qed.

Lemma check_digit_is_ignored_witness :
  (exists isbn13,
     isbn10_to_isbn13 (PyStr (lit "0306406152")) = Ok isbn13 /\
     isbn10_to_isbn13 (PyStr (lit "030640615X")) = Ok isbn13) /\
  (exists isbn10,
     isbn13_to_isbn10 (PyStr (lit "9780306406157")) = Ok isbn10 /\
     isbn13_to_isbn10 (PyStr (lit "9780306406153")) = Ok isbn10).
Proof.
  split.
  - apply (check_digit_is_ignored
             (PyStr (lit "0306406152")) (PyStr (lit "030640615X"))
             (lit "0306406152") (lit "030640615X")); reflexivity.
  - apply (check_digit_is_ignored
             (PyStr (lit "9780306406157")) (PyStr (lit "9780306406153"))
             (lit "9780306406157") (lit "9780306406153")); reflexivity.
Defined.

(* ================================================================= *)
(** * The provider clients (C10) *)
(* ================================================================= *)

Section Clients.
Context `{World}.

Lemma requests_sent_app (t1 t2 : list event) :
  requests_sent (t1 ++ t2) = requests_sent t1 ++ requests_sent t2.
Proof. unfold requests_sent. apply flat_map_app. Qed.

Lemma requests_sent_logged (b : bool) (e : event) :
  is_logged e = true -> requests_sent (if b then [e] else []) = [].
Proof. destruct b, e; try discriminate; reflexivity. Qed.

(** A log line whose message can be built, and what follows it. *)
Lemma io_bind_logger_info_ok {A} (self : client) (m : str)
    (k : unit -> io A) :
  io_bind (logger_info self (Ok m)) k =
  ((if verbose self then [LoggerInfo m] else []) ++ fst (k tt), snd (k tt)).
Proof.
  unfold logger_info, io_bind, eval, emit, io_ret.
  destruct (verbose self); reflexivity.
Qed.

(** A log line whose message cannot be built: a verbose client raises
    before anything else happens, a quiet one goes on. *)
Lemma io_bind_logger_info_raise {A} (self : client) (e : exn)
    (k : unit -> io A) :
  io_bind (logger_info self (Raise e)) k =
  if verbose self then ([], Raise e) else (fst (k tt), snd (k tt)).
Proof.
  unfold logger_info, io_bind, eval, emit, io_ret.
  destruct (verbose self); reflexivity.
Qed.

(** The [try] whose arguments are built sends one request. *)
Lemma get_and_parse_sends_once (self : client)
    (r : Http.request seconds) (parse : str -> result document) :
  requests_sent (fst (get_and_parse self (Ok r) parse)) = [r].
Proof.
  unfold get_and_parse, logger_info, logger_error, io_bind, eval, emit, io_ret.
  destruct (verbose self);
    destruct (requests_get r) as [| | | status_code text];
    try destruct (status_code =? 200); try reflexivity;
    cbn [fst snd]; destruct (parse text); reflexivity.
Qed.

(** What it returns, by the outcome of the request. *)
Lemma get_and_parse_returns (self : client)
    (r : Http.request seconds) (parse : str -> result document) :
  snd (get_and_parse self (Ok r) parse) =
  match requests_get r with
  | Http.Response status_code text =>
      if status_code =? 200 then
        match parse text with
        | Ok d => Ok (Some d)
        | Raise e => Raise e
        end
      else Ok None
  | _ => Ok None
  end.
Proof.
  unfold get_and_parse, logger_info, logger_error, io_bind, eval, emit, io_ret.
  destruct (verbose self);
    destruct (requests_get r) as [| | | status_code text];
    try destruct (status_code =? 200); try reflexivity;
    cbn [fst snd]; destruct (parse text); reflexivity.
Qed.

(** What it logs: one line after the request, when the client is verbose. *)
Lemma get_and_parse_trace (self : client)
    (r : Http.request seconds) (parse : str -> result document) :
  if verbose self then
    exists final,
      fst (get_and_parse self (Ok r) parse) = [Get r; final] /\
      is_logged final = true
  else fst (get_and_parse self (Ok r) parse) = [Get r].
Proof.
  unfold get_and_parse, logger_info, logger_error, io_bind, eval, emit, io_ret.
  destruct (verbose self);
    destruct (requests_get r) as [| | | status_code text];
    try destruct (status_code =? 200); cbn [fst snd app];
    try destruct (parse text); cbn [fst snd app];
    try reflexivity; eexists; split; reflexivity.
Qed.

(** The [try] whose arguments raise sends nothing and returns null. *)
Lemma get_and_parse_raise (self : client) (e : exn)
    (parse : str -> result document) :
  get_and_parse self (Raise e) parse =
  ((if verbose self then [LoggerError (lit "Unknown error")] else []),
   Ok None).
Proof.
  unfold get_and_parse, logger_error, io_bind, emit, io_ret.
  destruct (verbose self); reflexivity.
Qed.

Lemma answer_json (p : provider) (r : Http.request seconds) :
  p <> NDL ->
  match requests_get r with
  | Http.Response status_code text =>
      if status_code =? 200 then
        match json text with
        | Ok d => Ok (Some d)
        | Raise e => Raise e
        end
      else Ok None
  | _ => Ok None
  end = answer p r.
Proof.
  intros Hp. unfold answer, json.
  destruct (requests_get r) as [| | | status_code text]; try reflexivity.
  destruct (status_code =? 200); [| reflexivity].
  destruct p; try contradiction; destruct (response_json text); reflexivity.
Qed.

Lemma answer_xml (r : Http.request seconds) :
  match requests_get r with
  | Http.Response status_code text =>
      if status_code =? 200 then
        match xml text with
        | Ok d => Ok (Some d)
        | Raise e => Raise e
        end
      else Ok None
  | _ => Ok None
  end = answer NDL r.
Proof.
  unfold answer, xml.
  destruct (requests_get r) as [| | | status_code text]; try reflexivity.
  destruct (status_code =? 200); [| reflexivity].
  destruct (xmltodict_parse text); reflexivity.
Qed.

Lemma io_bind_eval_ok {A B} (a : A) (k : A -> io B) :
  io_bind (eval (Ok a)) k = (fst (k a), snd (k a)).
Proof. reflexivity. Qed.

End Clients.

(** One request, and the answer to it. *)
Ltac sent_and_answered :=
  eexists; split;
  [ rewrite ?requests_sent_app, ?requests_sent_logged by reflexivity;
    cbn [app]; apply get_and_parse_sends_once
  | rewrite get_and_parse_returns;
    first [apply answer_xml | apply answer_json; discriminate] ].

(** C10 as stated fails: when the answer has status 200 and a body that
    is not JSON, [response.json()] raises and [isbn_search] lets the
    exception through. *)
Lemma isbn_search_raises :
  let world := example_world (Http.Response 200 (lit "<html></html>")) in
  let self := OpenLibraryAPI.init None None in
  let returned :=
    snd (isbn_search_of OpenLibrary self (PyStr (lit "0306406152"))) in
  @response_json world (lit "<html></html>") = None /\
  returned = Raise JSONDecodeError /\
  forall d, returned <> Ok d.
Proof.
  cbv zeta. split; [reflexivity |]. split; [reflexivity |].
  intros d. vm_compute. discriminate.
Qed.

(** C10, amended.  When the ISBN can be written as a string (any string,
    any integer of at most 4300 digits), every [isbn_search] sends exactly
    one request and returns null when the request raises, whatever the
    exception, and when the status of the response is not 200; when the
    status is 200 it returns the parsed body (JSON, and XML for the National
    Diet Library) if the body parses, and lets the exception of the parser
    through if it does not.  When [str] raises on the ISBN, no request is
    sent by a verbose client, which raises that exception at its first log
    line, nor by the National Diet Library client, which raises it when it
    builds [params]; a quiet OpenLibrary or Google Books client sends no
    request and returns null, the URL being built inside the [try]; a
    quiet OpenBD client hands the ISBN to the request as it is and sends
    it.  No call sends more than one request. *)
Theorem isbn_search_spec `{World} (p : provider) (self : client)
    (isbn : object) :
  let trace := fst (isbn_search_of p self isbn) in
  let returned := snd (isbn_search_of p self isbn) in
  match str_of isbn with
  | Ok s =>
      exists r, requests_sent trace = [r] /\ returned = answer p r
  | Raise e =>
      match p with
      | OpenLibrary | GoogleBooks =>
          requests_sent trace = [] /\
          returned = if verbose self then Raise e else Ok None
      | NDL =>
          requests_sent trace = [] /\ returned = Raise e
      | OpenBD =>
          if verbose self then requests_sent trace = [] /\ returned = Raise e
          else exists r, requests_sent trace = [r] /\ returned = answer p r
      end
  end.
Proof.
  cbv zeta. destruct (str_of isbn) as [s | e] eqn:Es.
  - destruct p; cbn [isbn_search_of];
      unfold OpenLibraryAPI.isbn_search, GoogleBooksAPI.isbn_search,
        NDLAPI.isbn_search, OpenBDAPI.isbn_search;
      rewrite Es; cbn [bind]; rewrite io_bind_logger_info_ok;
      rewrite ?io_bind_eval_ok; cbn [fst snd]; sent_and_answered.
  - destruct p; cbn [isbn_search_of];
      unfold OpenLibraryAPI.isbn_search, GoogleBooksAPI.isbn_search,
        NDLAPI.isbn_search, OpenBDAPI.isbn_search;
      rewrite Es; cbn [bind]; rewrite io_bind_logger_info_raise.
    + rewrite get_and_parse_raise. destruct (verbose self); split; reflexivity.
    + rewrite get_and_parse_raise. destruct (verbose self); split; reflexivity.
    + destruct (verbose self); split; reflexivity.
    + destruct (verbose self); [split; reflexivity |]. cbn [fst snd].
      sent_and_answered.
Qed.

Example isbn_search_of_long_int `{World} (self : client) :
  isbn_search_of OpenLibrary self (PyInt (10 ^ 4300)) =
    (if verbose self
     then ([], Raise (ValueError int_max_str_digits_message))
     else ([], Ok None)) /\
  isbn_search_of NDL self (PyInt (10 ^ 4300)) =
    ([], Raise (ValueError int_max_str_digits_message)).
Proof.
  cbn [isbn_search_of].
  unfold OpenLibraryAPI.isbn_search, NDLAPI.isbn_search.
  rewrite str_of_long_int. cbn [bind].
  rewrite !io_bind_logger_info_raise, get_and_parse_raise.
  destruct (verbose self); split; reflexivity.
Qed.

Example isbn_search_found :
  let world := example_world (Http.Response 200 (lit "<a/>")) in
  let self := NDLAPI.init (Some 5) (Some true) in
  snd (isbn_search_of NDL self (PyInt 9780306406157)) = Ok (Some EmptyElement).
Proof. reflexivity. Qed.

Example isbn_search_not_found :
  let world := example_world (Http.Response 404 (lit "{}")) in
  let self := OpenBDAPI.init None None in
  isbn_search_of OpenBD self (PyStr (lit "9780306406157")) =
  ([Get {| Http.url := lit "https://api.openbd.jp/v1/get";
           Http.params := [(lit "isbn", PyStr (lit "9780306406157"))];
           Http.timeout := 1 |}],
   Ok None).
Proof. reflexivity. Qed.

Example isbn_search_timeout :
  let world := example_world Http.Timeout in
  let self := GoogleBooksAPI.init None (Some true) in
  fst (isbn_search_of GoogleBooks self (PyStr (lit "1")))  =
  [ LoggerInfo (lit "Searching for book with ISBN: 1");
    Get {| Http.url := lit "https://www.googleapis.com/books/v1/volumes?q=isbn:1";
           Http.params := [];
           Http.timeout := 1 |};
    LoggerError (lit "Request timed out") ].
Proof. reflexivity. Qed.

(* ================================================================= *)
(** * More on the normalizer *)
(* ================================================================= *)

Lemma only_number_raises (s : str) (e : exn) :
  only_number s = Raise e -> s = [] /\ e = IndexError.
Proof.
  destruct (snoc_cases s) as [-> | [s' [c ->]]].
  - rewrite only_number_nil. intros E. injection E as <-. auto.
  - rewrite only_number_snoc. discriminate.
Qed.

Lemma filter_decimal_snoc_X (s : str) :
  filter isdecimal (s ++ [char_X]) = filter isdecimal s.
Proof. rewrite filter_app. simpl. apply app_nil_r. Qed.

(** X1: [only_number] returns decimal characters and possibly a final [X]; the
    decimal characters are those of the argument, in their order; the result
    is no longer than the argument. *)
Theorem only_number_shape (s n : str) :
  only_number s = Ok n ->
  normal n /\
  filter isdecimal n = filter isdecimal s /\
  (length n <= length s)%nat.
Proof.
  intros Hn. split; [apply (only_number_normal s n Hn) |].
  destruct (snoc_cases s) as [-> | [s' [c ->]]]; [discriminate |].
  rewrite only_number_snoc in Hn. injection Hn as <-.
  destruct (N.eqb_spec c char_X) as [Ec | Ec].
  - rewrite Ec, !filter_decimal_snoc_X. split.
    + apply forallb_filter_id, forallb_filter.
    + rewrite !length_app. simpl.
      pose proof (filter_length_le isdecimal s'). lia.
  - split.
    + apply forallb_filter_id, forallb_filter.
    + apply filter_length_le.
Qed.

Lemma only_number_shape_witness :
  normal (lit "080442957X") /\
  filter isdecimal (lit "080442957X") = filter isdecimal (lit "0-8044-2957-X") /\
  (length (lit "080442957X") <= length (lit "0-8044-2957-X"))%nat.
Proof.
  apply (only_number_shape (lit "0-8044-2957-X") (lit "080442957X")).
  reflexivity.
Defined.

(* ================================================================= *)
(** * What the converters raise *)
(* ================================================================= *)

Lemma numeral_nonempty (z : Z) : numeral z <> [].
Proof.
  unfold numeral, NilZero.string_of_int, NilZero.string_of_uint.
  destruct (Z.to_int z) as [d | d]; [destruct d |]; discriminate.
Qed.

(** [str] raises on an integer exactly when its numeral has more digits
    than the limit. *)
Lemma str_of_int_raises (z : Z) (e : exn) :
  str_of_int z = Raise e <->
  (int_max_str_digits < length (numeral (Z.abs z)))%nat /\
  e = ValueError int_max_str_digits_message.
Proof.
  unfold str_of_int.
  destruct (Nat.leb_spec (length (numeral (Z.abs z))) int_max_str_digits)
    as [L | L].
  - split; [discriminate | intros [G _]; lia].
  - split; [intros E; injection E as <-; auto | intros [_ ->]; reflexivity].
Qed.

Lemma str_of_int_ok (z : Z) (s : str) :
  str_of_int z = Ok s -> s = numeral z.
Proof.
  unfold str_of_int. destruct (_ <=? _)%nat; [| discriminate].
  intros E. injection E as <-. reflexivity.
Qed.

Lemma normal_nonempty_only_number (n : str) (k : nat) :
  normal n -> length n = S k -> only_number n = Ok n.
Proof.
  intros Hn E. apply (normal_only_number n Hn).
  intros Z0. rewrite Z0 in E. discriminate.
Qed.

(** X2: [isbn10_to_isbn13] raises in three cases only: the exception of
    [str] on its argument (on an integer, when it has more than 4300
    digits), [IndexError] when the string of its argument is empty, and the
    error of the length check, with the normalized string, when that has not
    ten characters.  The [int] of the checksum loop never raises. *)
Theorem isbn10_to_isbn13_raises (v : object) (e : exn) :
  isbn10_to_isbn13 v = Raise e ->
  str_of v = Raise e \/
  (str_of v = Ok [] /\ e = IndexError) \/
  (exists n, normalization v = Ok n /\ length n <> 10%nat /\
             e = ValueError (isbn10_length_message n)).
Proof.
  intros R. destruct (normalization v) as [n | e'] eqn:Hn.
  - right. right. exists n. destruct (Nat.eq_dec (length n) 10) as [E | E].
    + rewrite (isbn10_to_isbn13_value v n Hn E) in R. discriminate.
    + rewrite (isbn10_to_isbn13_wrong_length v n Hn E) in R.
      injection R as <-. auto.
  - rewrite isbn10_to_isbn13_unfold, Hn in R. cbn [bind] in R.
    injection R as <-.
    destruct (normalization_raises _ _ Hn) as [S | S]; auto.
Qed.

Lemma isbn10_to_isbn13_raises_witness :
  str_of (PyStr (lit "12-345")) =
    Raise (ValueError (isbn10_length_message (lit "12345"))) \/
  (str_of (PyStr (lit "12-345")) = Ok [] /\
   ValueError (isbn10_length_message (lit "12345")) = IndexError) \/
  (exists n, normalization (PyStr (lit "12-345")) = Ok n /\
             length n <> 10%nat /\
             ValueError (isbn10_length_message (lit "12345")) =
             ValueError (isbn10_length_message n)).
Proof.
  apply (isbn10_to_isbn13_raises (PyStr (lit "12-345"))). reflexivity.
Defined.

(** X3: [isbn13_to_isbn10] raises in three cases only: the exception of
    [str] on its argument (on an integer, when it has more than 4300
    digits), [IndexError] when the string of its argument is empty, and the
    error of the format check, with the normalized string, when that has not
    thirteen characters or does not start with ["978"]. *)
Theorem isbn13_to_isbn10_raises (v : object) (e : exn) :
  isbn13_to_isbn10 v = Raise e ->
  str_of v = Raise e \/
  (str_of v = Ok [] /\ e = IndexError) \/
  (exists n, normalization v = Ok n /\
             (length n <> 13%nat \/ startswith n (lit "978") = false) /\
             e = ValueError (isbn13_format_message n)).
Proof.
  intros R. destruct (normalization v) as [n | e'] eqn:Hn.
  - right. right. exists n. destruct (Nat.eq_dec (length n) 13) as [E | E].
    + destruct (startswith n (lit "978")) eqn:P.
      * rewrite (isbn13_to_isbn10_value v n Hn E P) in R. discriminate.
      * rewrite (isbn13_to_isbn10_wrong_prefix v n Hn P) in R.
        injection R as <-. auto.
    + rewrite (isbn13_to_isbn10_wrong_length v n Hn E) in R.
      injection R as <-. auto.
  - rewrite isbn13_to_isbn10_unfold, Hn in R. cbn [bind] in R.
    injection R as <-.
    destruct (normalization_raises _ _ Hn) as [S | S]; auto.
Qed.

Lemma isbn13_to_isbn10_raises_witness :
  str_of (PyStr (lit "9790306406153")) =
    Raise (ValueError (isbn13_format_message (lit "9790306406153"))) \/
  (str_of (PyStr (lit "9790306406153")) = Ok [] /\
   ValueError (isbn13_format_message (lit "9790306406153")) = IndexError) \/
  (exists n,
     normalization (PyStr (lit "9790306406153")) = Ok n /\
     (length n <> 13%nat \/ startswith n (lit "978") = false) /\
     ValueError (isbn13_format_message (lit "9790306406153")) =
     ValueError (isbn13_format_message n)).
Proof.
  apply (isbn13_to_isbn10_raises (PyStr (lit "9790306406153"))).
  reflexivity.
Defined.

(** X4: [calc_both_isbn] raises in four cases only: the argument error on
    an argument that is neither a string nor an integer, the error of [str]
    on an integer of more than 4300 digits, [IndexError] on the empty
    string, and a format error when the normalized string has neither ten
    characters nor thirteen that start with ["978"]. *)
Theorem calc_both_isbn_raises (v : object) (e : exn) :
  calc_both_isbn v = Raise e ->
  (isinstance_int v || isinstance_str v = false /\ InvalidArgument e) \/
  (exists z, v = PyInt z /\
             (int_max_str_digits < length (numeral (Z.abs z)))%nat /\
             e = ValueError int_max_str_digits_message) \/
  (v = PyStr [] /\ e = IndexError) \/
  (exists n, normalization v = Ok n /\
             length n <> 10%nat /\
             (length n = 13%nat -> startswith n (lit "978") = false) /\
             InvalidFormat e).
Proof.
  intros R. destruct (isinstance_int v || isinstance_str v) eqn:T.
  - right. destruct (normalization v) as [n | e'] eqn:Hn.
    + right. right. exists n. split; [reflexivity |].
      rewrite (calc_both_isbn_normalized v n T Hn) in R.
      pose proof (normalization_normal _ _ Hn) as N.
      destruct (Nat.eqb_spec (length n) 10) as [E10 | E10].
      { destruct (isbn10_to_isbn13_returns n N E10) as [o O].
        rewrite O in R. discriminate. }
      split; [exact E10 |].
      destruct (Nat.eqb_spec (length n) 13) as [E13 | E13].
      * pose proof (normal_nonempty_only_number n 12 N E13) as Nn.
        destruct (startswith n (lit "978")) eqn:P.
        { rewrite (isbn13_to_isbn10_value (PyStr n) n Nn E13 P) in R.
          discriminate. }
        rewrite (isbn13_to_isbn10_wrong_prefix (PyStr n) n Nn P) in R.
        injection R as <-. split; [reflexivity | exact I].
      * injection R as <-. split; [contradiction | exact I].
    + rewrite (calc_both_isbn_not_normalized v e' T Hn) in R.
      injection R as <-.
      destruct (normalization_raises _ _ Hn) as [S | [S ->]].
      * left. destruct v as [s | z | [|] | r]; try discriminate.
        exists z. split; [reflexivity |].
        apply (str_of_int_raises z e'), S.
      * right. left. split; [| reflexivity].
        destruct v as [s | z | [|] | r]; try discriminate.
        -- cbn [str_of] in S. injection S as ->. reflexivity.
        -- cbn [str_of] in S. apply str_of_int_ok in S.
           destruct (numeral_nonempty z). symmetry. exact S.
  - left. split; [reflexivity |].
    destruct v; try discriminate T. injection R as <-. reflexivity.
Qed.

Lemma calc_both_isbn_raises_witness :
  (isinstance_int (PyOther (Ok (lit "3.5")))
   || isinstance_str (PyOther (Ok (lit "3.5"))) = false /\
   InvalidArgument (ValueError not_str_or_int_message)) \/
  (exists z, PyOther (Ok (lit "3.5")) = PyInt z /\
             (int_max_str_digits < length (numeral (Z.abs z)))%nat /\
             ValueError not_str_or_int_message =
             ValueError int_max_str_digits_message) \/
  (PyOther (Ok (lit "3.5")) = PyStr [] /\
   ValueError not_str_or_int_message = IndexError) \/
  (exists n, normalization (PyOther (Ok (lit "3.5"))) = Ok n /\
             length n <> 10%nat /\
             (length n = 13%nat -> startswith n (lit "978") = false) /\
             InvalidFormat (ValueError not_str_or_int_message)).
Proof.
  apply (calc_both_isbn_raises (PyOther (Ok (lit "3.5")))). reflexivity.
Defined.

(* ================================================================= *)
(** * The check digits that are returned *)
(* ================================================================= *)

Lemma weighted_sum_snoc (w : nat -> Z) (ds : list Z) (d : Z) :
  weighted_sum w (ds ++ [d]) = weighted_sum w ds + d * w (length ds).
Proof.
  revert w. induction ds as [| a ds IH]; intros w.
  - unfold weighted_sum. simpl. lia.
  - simpl app. rewrite !weighted_sum_cons, IH. simpl length. lia.
Qed.

Lemma digit_value_digit_char (d : Z) :
  0 <= d < 10 -> digit_value (digit_char d) = d.
Proof. intros H. each_digit d H; reflexivity. Qed.

Lemma check13_arith (S : Z) : (S + (10 - S mod 10) mod 10) mod 10 = 0.
Proof. Z.div_mod_to_equations. lia. Qed.

Lemma check10_arith (S : Z) : (S + (11 - S mod 11) mod 11) mod 11 = 0.
Proof. Z.div_mod_to_equations. lia. Qed.

Lemma built13_checksum (body : str) :
  length body = 12%nat ->
  isbn13_checksum_ok (body ++ [digit_char (spec_isbn13_check_digit body)])
  = true.
Proof.
  intros L. unfold isbn13_checksum_ok.
  rewrite map_app. simpl map. rewrite weighted_sum_snoc, length_map, L.
  rewrite digit_value_digit_char by apply spec_isbn13_check_digit_range.
  change (Nat.even 12) with true. cbv iota. rewrite Z.mul_1_r.
  unfold spec_isbn13_check_digit. rewrite check13_arith. reflexivity.
Qed.

Lemma isbn10_char_value_check_char (body : str) :
  isbn10_char_value (spec_isbn10_check_char body) =
  spec_isbn10_check_digit body.
Proof.
  unfold spec_isbn10_check_char.
  pose proof (spec_isbn10_check_digit_range body) as R.
  destruct (Z.eqb_spec (spec_isbn10_check_digit body) 10) as [E | E].
  - rewrite E. reflexivity.
  - unfold isbn10_char_value.
    rewrite digit_char_not_X, digit_value_digit_char by lia. reflexivity.
Qed.

Lemma isbn10_char_value_decimal (body : str) :
  forallb isdecimal body = true ->
  map isbn10_char_value body = map digit_value body.
Proof.
  intros D. apply map_ext_in. intros c Hc.
  unfold isbn10_char_value.
  rewrite (isdecimal_not_X c (proj1 (forallb_forall _ _) D c Hc)).
  reflexivity.
Qed.

Lemma built10_checksum (body : str) :
  length body = 9%nat -> forallb isdecimal body = true ->
  isbn10_checksum_ok (body ++ [spec_isbn10_check_char body]) = true.
Proof.
  intros L D. unfold isbn10_checksum_ok.
  rewrite map_app. simpl map. rewrite weighted_sum_snoc, length_map, L.
  rewrite isbn10_char_value_check_char, (isbn10_char_value_decimal body D).
  change (10 - Z.of_nat 9) with 1. rewrite Z.mul_1_r.
  unfold spec_isbn10_check_digit. rewrite check10_arith. reflexivity.
Qed.

Lemma Ok_inj {A} (a b : A) : Ok a = Ok b -> a = b.
Proof. intros E. injection E as E. exact E. Qed.

(** X5: Whatever [isbn10_to_isbn13] returns passes the ISBN-13 test: its
    thirteen digits, weighted 1 and 3 in turn, add up to a multiple of
    ten. *)
Theorem isbn10_to_isbn13_checksum (v : object) (isbn13 : str) :
  isbn10_to_isbn13 v = Ok isbn13 ->
  isbn13_checksum_ok isbn13 = true.
Proof.
  intros R. destruct (normalization v) as [n | e] eqn:Hn.
  - destruct (Nat.eq_dec (length n) 10) as [E | E].
    + rewrite (isbn10_to_isbn13_value v n Hn E) in R.
      apply Ok_inj in R. subst isbn13.
      rewrite app_assoc. apply built13_checksum.
      rewrite length_app, length_firstn, E. reflexivity.
    + rewrite (isbn10_to_isbn13_wrong_length v n Hn E) in R. discriminate.
  - rewrite isbn10_to_isbn13_unfold, Hn in R. discriminate.
Qed.

Lemma isbn10_to_isbn13_checksum_witness :
  isbn13_checksum_ok (lit "9780306406157") = true.
Proof.
  apply (isbn10_to_isbn13_checksum (PyStr (lit "0-306-40615-2"))).
  reflexivity.
Defined.

(** X6: Whatever [isbn13_to_isbn10] returns passes the ISBN-10 test: its ten
    characters, [X] counting for ten, weighted 10 down to 1, add up to a
    multiple of eleven. *)
Theorem isbn13_to_isbn10_checksum (v : object) (isbn10 : str) :
  isbn13_to_isbn10 v = Ok isbn10 ->
  isbn10_checksum_ok isbn10 = true.
Proof.
  intros R. destruct (normalization v) as [n | e] eqn:Hn.
  - destruct (Nat.eq_dec (length n) 13) as [E | E].
    + destruct (startswith n (lit "978")) eqn:P.
      * rewrite (isbn13_to_isbn10_value v n Hn E P) in R.
        apply Ok_inj in R. subst isbn10.
        apply built10_checksum.
        -- unfold positions.
           rewrite length_firstn, length_skipn, E. reflexivity.
        -- rewrite positions_firstn. apply forallb_skipn.
           apply (normal_firstn n 12 (normalization_normal _ _ Hn) E).
      * rewrite (isbn13_to_isbn10_wrong_prefix v n Hn P) in R. discriminate.
    + rewrite (isbn13_to_isbn10_wrong_length v n Hn E) in R. discriminate.
  - rewrite isbn13_to_isbn10_unfold, Hn in R. discriminate.
Qed.

Lemma isbn13_to_isbn10_checksum_witness :
  isbn10_checksum_ok (lit "080442957X") = true.
Proof.
  apply (isbn13_to_isbn10_checksum (PyStr (lit "978-0-8044-2957-3"))).
  reflexivity.
Defined.

(* ================================================================= *)
(** * From ISBN-13 to ISBN-10 and back *)
(* ================================================================= *)

Lemma startswith_firstn (s p : str) :
  startswith s p = true -> firstn (length p) s = p.
Proof.
  revert s. induction p as [| c p IH]; intros s H; [reflexivity |].
  destruct s as [| a s]; [discriminate |]. simpl in *.
  apply andb_true_iff in H as [Ha Hs]. apply N.eqb_eq in Ha.
  rewrite Ha, (IH s Hs). reflexivity.
Qed.

Lemma positions_of_built (body : str) (d : char) :
  length body = 9%nat -> positions 3 11 (lit "978" ++ body ++ [d]) = body.
Proof.
  intros L. unfold positions.
  change (skipn 3 (lit "978" ++ body ++ [d])) with (body ++ [d]).
  change (11 + 1 - 3)%nat with (9 + 0)%nat. rewrite <- L.
  rewrite firstn_app_2. simpl. apply app_nil_r.
Qed.

(** The first twelve characters of a normalized ISBN-13 of the 978 range. *)
Lemma firstn_12_978 (n : str) :
  startswith n (lit "978") = true ->
  firstn 12 n = lit "978" ++ positions 3 11 n.
Proof.
  intros P. rewrite positions_firstn.
  rewrite <- (firstn_skipn 3 (firstn 12 n)) at 1. f_equal.
  rewrite firstn_firstn. apply (startswith_firstn n (lit "978") P).
Qed.

Lemma normal_built10 (body : str) :
  forallb isdecimal body = true ->
  normal (body ++ [spec_isbn10_check_char body]).
Proof.
  intros D. unfold spec_isbn10_check_char.
  pose proof (spec_isbn10_check_digit_range body) as R.
  destruct (Z.eqb_spec (spec_isbn10_check_digit body) 10) as [E | E].
  - apply normal_X, D.
  - apply normal_digits. rewrite forallb_app, D. simpl.
    rewrite isdecimal_digit_char by lia. reflexivity.
Qed.

Lemma normal_built13 (body : str) (d : Z) :
  forallb isdecimal body = true -> 0 <= d < 10 ->
  normal (lit "978" ++ body ++ [digit_char d]).
Proof.
  intros D R. apply normal_digits.
  rewrite !forallb_app, lit_978_decimal, D. simpl.
  rewrite isdecimal_digit_char by exact R. reflexivity.
Qed.

Lemma firstn_snoc (body : str) (c : char) :
  firstn (length body) (body ++ [c]) = body.
Proof.
  rewrite <- (Nat.add_0_r (length body)), firstn_app_2. simpl.
  apply app_nil_r.
Qed.

(** The ISBN-10 that [isbn13_to_isbn10] builds from nine decimal characters
    converts to ["978"], these characters and their ISBN-13 check digit. *)
Lemma isbn10_to_isbn13_of_built (body : str) :
  forallb isdecimal body = true -> length body = 9%nat ->
  isbn10_to_isbn13 (PyStr (body ++ [spec_isbn10_check_char body])) =
  Ok (lit "978" ++ body ++
      [digit_char (spec_isbn13_check_digit (lit "978" ++ body))]).
Proof.
  intros D L.
  set (a := body ++ [spec_isbn10_check_char body]).
  assert (Ea : length a = 10%nat).
  { unfold a. rewrite length_app, L. reflexivity. }
  assert (Na : normalization (PyStr a) = Ok a).
  { apply (normal_nonempty_only_number a 9); [| exact Ea].
    apply normal_built10, D. }
  rewrite (isbn10_to_isbn13_value (PyStr a) a Na Ea).
  unfold a. rewrite <- L, firstn_snoc. reflexivity.
Qed.

Lemma round_trip_13_normal (y n : str) :
  only_number y = Ok n -> length n = 13%nat ->
  startswith n (lit "978") = true ->
  nth_error n 12 = Some (digit_char (spec_isbn13_check_digit (firstn 12 n))) ->
  round_trip_13 y = Ok n.
Proof.
  intros Hn E P C. unfold round_trip_13.
  rewrite (isbn13_to_isbn10_value (PyStr y) n Hn E P). cbn [bind].
  rewrite isbn10_to_isbn13_of_built.
  - f_equal. rewrite (snoc_nth_error n 12 _ E C) at 3.
    rewrite (firstn_12_978 n P), <- app_assoc. reflexivity.
  - rewrite positions_firstn. apply forallb_skipn.
    apply (normal_firstn n 12 (only_number_normal _ _ Hn) E).
  - unfold positions. rewrite length_firstn, length_skipn, E. reflexivity.
Qed.

(** X7: The round trip from an ISBN-13: when the normalization [n] of [y] has
    thirteen characters, starts with ["978"] and ends with the check digit
    of its first twelve, [isbn10_to_isbn13(isbn13_to_isbn10(y))] returns
    [n]; and [n] is [y] itself when [y] has thirteen characters. *)
Theorem round_trip_13_normalized (y n : str) :
  only_number y = Ok n ->
  length n = 13%nat ->
  startswith n (lit "978") = true ->
  nth_error n 12 = Some (digit_char (spec_isbn13_check_digit (firstn 12 n))) ->
  round_trip_13 y = Ok n /\ (length y = 13%nat -> n = y).
Proof.
  intros Hn E P C. split.
  - apply (round_trip_13_normal y n Hn E P C).
  - intros Ey. apply (only_number_same_length y n Hn). congruence.
Qed.

Lemma round_trip_13_normalized_witness :
  round_trip_13 (lit "978-0-8044-2957-3") = Ok (lit "9780804429573").
Proof.
  destruct (round_trip_13_normalized
              (lit "978-0-8044-2957-3") (lit "9780804429573")) as [R _];
    [reflexivity | reflexivity | reflexivity | reflexivity |].
  exact R.
Defined.

(* ================================================================= *)
(** * Separators and signs *)
(* ================================================================= *)

(** X8: Converting an argument and converting its normalization come to the
    same, result or exception, provided the normalization is not empty. *)
Theorem normalization_first (v : object) (n : str) :
  normalization v = Ok n ->
  (1 <= length n)%nat ->
  isbn10_to_isbn13 (PyStr n) = isbn10_to_isbn13 v /\
  isbn13_to_isbn10 (PyStr n) = isbn13_to_isbn10 v /\
  (isinstance_int v || isinstance_str v = true ->
   calc_both_isbn (PyStr n) = calc_both_isbn v).
Proof.
  intros Hn L.
  assert (Nn : only_number n = Ok n).
  { apply (normal_only_number n (normalization_normal _ _ Hn)).
    intros Z0. rewrite Z0 in L. simpl in L. lia. }
  split; [| split].
  - rewrite !isbn10_to_isbn13_unfold, Hn, normalization_str, Nn.
    reflexivity.
  - rewrite !isbn13_to_isbn10_unfold, Hn, normalization_str, Nn.
    reflexivity.
  - intros T. rewrite (calc_both_isbn_normalized v n T Hn).
    apply (calc_both_isbn_normalized (PyStr n) n eq_refl Nn).
Qed.

Lemma normalization_first_witness :
  isbn10_to_isbn13 (PyStr (lit "080442957X")) =
    isbn10_to_isbn13 (PyStr (lit "ISBN 0-8044-2957-X")) /\
  isbn13_to_isbn10 (PyStr (lit "080442957X")) =
    isbn13_to_isbn10 (PyStr (lit "ISBN 0-8044-2957-X")) /\
  calc_both_isbn (PyStr (lit "080442957X")) =
    calc_both_isbn (PyStr (lit "ISBN 0-8044-2957-X")).
Proof.
  destruct (normalization_first (PyStr (lit "ISBN 0-8044-2957-X"))
              (lit "080442957X")) as [A [B C]];
    [reflexivity | simpl; lia |].
  split; [exact A | split; [exact B | apply C; reflexivity]].
Defined.

Lemma numeral_neg (p : positive) :
  numeral (Z.neg p) = 45%N :: numeral (Z.pos p).
Proof. reflexivity. Qed.

Lemma only_number_minus (s : str) :
  s <> [] -> only_number (45%N :: s) = only_number s.
Proof.
  intros Hs. destruct (snoc_cases s) as [-> | [s' [c ->]]]; [easy |].
  rewrite app_comm_cons, !only_number_snoc. reflexivity.
Qed.

Lemma only_number_numeral_opp (z : Z) :
  only_number (numeral (- z)) = only_number (numeral z).
Proof.
  destruct z as [| p | p]; simpl Z.opp.
  - reflexivity.
  - rewrite numeral_neg.
    apply only_number_minus, numeral_nonempty.
  - rewrite numeral_neg. symmetry.
    apply only_number_minus, numeral_nonempty.
Qed.

Lemma normalization_opp (z : Z) :
  normalization (PyInt (- z)) = normalization (PyInt z).
Proof.
  unfold normalization. cbn [str_of]. unfold str_of_int.
  rewrite Z.abs_opp. destruct (_ <=? _)%nat; [| reflexivity].
  cbn [bind]. apply only_number_numeral_opp.
Qed.

(** X9: The sign of an integer argument is lost in the normalization: each of
    the three functions does on [-z] what it does on [z]. *)
Theorem sign_is_dropped (z : Z) :
  isbn10_to_isbn13 (PyInt (- z)) = isbn10_to_isbn13 (PyInt z) /\
  isbn13_to_isbn10 (PyInt (- z)) = isbn13_to_isbn10 (PyInt z) /\
  calc_both_isbn (PyInt (- z)) = calc_both_isbn (PyInt z).
Proof.
  pose proof (normalization_opp z) as O.
  split; [| split].
  - rewrite !isbn10_to_isbn13_unfold, O. reflexivity.
  - rewrite !isbn13_to_isbn10_unfold, O. reflexivity.
  - rewrite (calc_both_isbn_unfold (PyInt (- z)) eq_refl).
    rewrite (calc_both_isbn_unfold (PyInt z) eq_refl), O. reflexivity.
Qed.

Example calc_both_isbn_of_negative :
  calc_both_isbn (PyInt (-9780306406157)) =
  Ok (lit "0306406152", lit "9780306406157").
Proof. reflexivity. Qed.

(* ================================================================= *)
(** * The pair that is returned *)
(* ================================================================= *)

(** What [calc_both_isbn] returns, in full: the two strings are normalized,
    one of them is the normalized argument, and the ISBN-13 is ["978"] and
    the first nine characters of the ISBN-10 with one more character. *)
Lemma calc_both_isbn_pair (v : object) (a b : str) :
  calc_both_isbn v = Ok (a, b) ->
  normal a /\ normal b /\ length a = 10%nat /\ length b = 13%nat /\
  startswith b (lit "978") = true /\ positions 3 11 b = firstn 9 a /\
  (normalization v = Ok a \/ normalization v = Ok b).
Proof.
  intros R. destruct (isinstance_int v || isinstance_str v) eqn:T.
  2:{ destruct v; try discriminate T. discriminate R. }
  destruct (normalization v) as [n | e] eqn:Hn.
  2:{ rewrite (calc_both_isbn_not_normalized v e T Hn) in R. discriminate. }
  rewrite (calc_both_isbn_normalized v n T Hn) in R.
  pose proof (normalization_normal _ _ Hn) as N.
  destruct (Nat.eqb_spec (length n) 10) as [E10 | E10].
  - pose proof (normal_nonempty_only_number n 9 N E10) as Nn.
    pose proof (normal_firstn n 9 N E10) as D.
    rewrite (isbn10_to_isbn13_value (PyStr n) n Nn E10) in R.
    cbn [bind] in R. apply Ok_inj in R.
    apply pair_equal_spec in R as [<- <-].
    refine (conj _ (conj _ (conj _ (conj _ (conj _ (conj _ _)))))).
    + exact N.
    + apply (normal_built13 _ _ D), spec_isbn13_check_digit_range.
    + exact E10.
    + rewrite !length_app, length_firstn, E10. reflexivity.
    + apply startswith_app.
    + apply positions_of_built. rewrite length_firstn, E10. reflexivity.
    + left. reflexivity.
  - destruct (Nat.eqb_spec (length n) 13) as [E13 | E13]; [| discriminate].
    pose proof (normal_nonempty_only_number n 12 N E13) as Nn.
    destruct (startswith n (lit "978")) eqn:P.
    2:{ rewrite (isbn13_to_isbn10_wrong_prefix (PyStr n) n Nn P) in R.
        discriminate. }
    rewrite (isbn13_to_isbn10_value (PyStr n) n Nn E13 P) in R.
    cbn [bind] in R. apply Ok_inj in R.
    apply pair_equal_spec in R as [<- <-].
    assert (L : length (positions 3 11 n) = 9%nat).
    { unfold positions. rewrite length_firstn, length_skipn, E13.
      reflexivity. }
    assert (D : forallb isdecimal (positions 3 11 n) = true).
    { rewrite positions_firstn. apply forallb_skipn.
      apply (normal_firstn n 12 N E13). }
    refine (conj _ (conj _ (conj _ (conj _ (conj _ (conj _ _)))))).
    + apply normal_built10, D.
    + exact N.
    + rewrite length_app, L. reflexivity.
    + exact E13.
    + exact P.
    + rewrite <- L at 2. rewrite firstn_snoc. reflexivity.
    + right. reflexivity.
Qed.

(** X10: When [calc_both_isbn] returns, the first string has ten characters and
    the second thirteen, the second starts with ["978"] and carries, at
    positions 3 through 11, the first nine characters of the first; and one
    of the two is the normalized argument. *)
Theorem calc_both_isbn_returns_pair (v : object) (a b : str) :
  calc_both_isbn v = Ok (a, b) ->
  length a = 10%nat /\ length b = 13%nat /\
  startswith b (lit "978") = true /\
  positions 3 11 b = firstn 9 a /\
  (normalization v = Ok a \/ normalization v = Ok b).
Proof.
  intros R.
  destruct (calc_both_isbn_pair v a b R) as [_ [_ [La [Lb [P [B O]]]]]].
  auto.
Qed.

Lemma calc_both_isbn_returns_pair_witness :
  length (lit "080442957X") = 10%nat /\
  length (lit "9780804429573") = 13%nat /\
  startswith (lit "9780804429573") (lit "978") = true /\
  positions 3 11 (lit "9780804429573") = firstn 9 (lit "080442957X") /\
  (normalization (PyStr (lit "0-8044-2957-X")) = Ok (lit "080442957X")
   \/ normalization (PyStr (lit "0-8044-2957-X"))
      = Ok (lit "9780804429573")).
Proof.
  apply (calc_both_isbn_returns_pair (PyStr (lit "0-8044-2957-X"))).
  reflexivity.
Defined.

(** X11: A pair that [calc_both_isbn] returned and whose two check digits are
    right is returned again for either of its strings. *)
Theorem calc_both_isbn_fixed_point (v : object) (a b : str) :
  calc_both_isbn v = Ok (a, b) ->
  nth_error a 9 = Some (spec_isbn10_check_char (firstn 9 a)) ->
  nth_error b 12 = Some (digit_char (spec_isbn13_check_digit (firstn 12 b))) ->
  calc_both_isbn (PyStr a) = Ok (a, b) /\
  calc_both_isbn (PyStr b) = Ok (a, b).
Proof.
  intros R Ca Cb.
  destruct (calc_both_isbn_pair v a b R) as [Na [Nb [La [Lb [P [B _]]]]]].
  pose proof (normal_nonempty_only_number a 9 Na La) as Oa.
  pose proof (normal_nonempty_only_number b 12 Nb Lb) as Ob.
  assert (Eb : b = lit "978" ++ firstn 9 a ++
                 [digit_char (spec_isbn13_check_digit
                                (lit "978" ++ firstn 9 a))]).
  { rewrite (snoc_nth_error b 12 _ Lb Cb) at 1.
    rewrite (firstn_12_978 b P), B, <- app_assoc. reflexivity. }
  assert (Ea : a = positions 3 11 b ++
                 [spec_isbn10_check_char (positions 3 11 b)]).
  { rewrite B. apply (snoc_nth_error a 9 _ La Ca). }
  split.
  - rewrite (calc_both_isbn_normalized (PyStr a) a eq_refl Oa), La.
    cbn [Nat.eqb].
    rewrite (isbn10_to_isbn13_value (PyStr a) a Oa La), <- Eb. reflexivity.
  - rewrite (calc_both_isbn_normalized (PyStr b) b eq_refl Ob), Lb.
    cbn [Nat.eqb].
    rewrite (isbn13_to_isbn10_value (PyStr b) b Ob Lb P), <- Ea.
    reflexivity.
Qed.

Lemma calc_both_isbn_fixed_point_witness :
  calc_both_isbn (PyStr (lit "080442957X")) =
    Ok (lit "080442957X", lit "9780804429573") /\
  calc_both_isbn (PyStr (lit "9780804429573")) =
    Ok (lit "080442957X", lit "9780804429573").
Proof.
  apply (calc_both_isbn_fixed_point (PyStr (lit "ISBN 0-8044-2957-X")));
    reflexivity.
Defined.

(* ================================================================= *)
(** * Different books, different numbers *)
(* ================================================================= *)

(** X12: Two arguments that [isbn10_to_isbn13] converts to the same ISBN-13
    have the same first nine characters after normalization. *)
Theorem isbn10_to_isbn13_injective (v1 v2 : object) (n1 n2 isbn13 : str) :
  normalization v1 = Ok n1 ->
  normalization v2 = Ok n2 ->
  isbn10_to_isbn13 v1 = Ok isbn13 ->
  isbn10_to_isbn13 v2 = Ok isbn13 ->
  firstn 9 n1 = firstn 9 n2.
Proof.
  intros H1 H2 R1 R2.
  destruct (Nat.eq_dec (length n1) 10) as [E1 | E1].
  2:{ rewrite (isbn10_to_isbn13_wrong_length v1 n1 H1 E1) in R1.
      discriminate. }
  destruct (Nat.eq_dec (length n2) 10) as [E2 | E2].
  2:{ rewrite (isbn10_to_isbn13_wrong_length v2 n2 H2 E2) in R2.
      discriminate. }
  rewrite (isbn10_to_isbn13_value v1 n1 H1 E1) in R1.
  rewrite (isbn10_to_isbn13_value v2 n2 H2 E2) in R2.
  apply Ok_inj in R1, R2. rewrite <- R2 in R1.
  apply app_inv_head in R1. apply app_inj_tail in R1 as [F _]. exact F.
Qed.

Lemma isbn10_to_isbn13_injective_witness :
  firstn 9 (lit "0306406152") = firstn 9 (lit "030640615X").
Proof.
  apply (isbn10_to_isbn13_injective
           (PyStr (lit "0-306-40615-2")) (PyStr (lit "030640615X"))
           (lit "0306406152") (lit "030640615X") (lit "9780306406157"));
    reflexivity.
Defined.

(** X13: Two arguments that [isbn13_to_isbn10] converts to the same ISBN-10
    have the same first twelve characters after normalization. *)
Theorem isbn13_to_isbn10_injective (v1 v2 : object) (n1 n2 isbn10 : str) :
  normalization v1 = Ok n1 ->
  normalization v2 = Ok n2 ->
  isbn13_to_isbn10 v1 = Ok isbn10 ->
  isbn13_to_isbn10 v2 = Ok isbn10 ->
  firstn 12 n1 = firstn 12 n2.
Proof.
  intros H1 H2 R1 R2.
  destruct (Nat.eq_dec (length n1) 13) as [E1 | E1].
  2:{ rewrite (isbn13_to_isbn10_wrong_length v1 n1 H1 E1) in R1.
      discriminate. }
  destruct (Nat.eq_dec (length n2) 13) as [E2 | E2].
  2:{ rewrite (isbn13_to_isbn10_wrong_length v2 n2 H2 E2) in R2.
      discriminate. }
  destruct (startswith n1 (lit "978")) eqn:P1.
  2:{ rewrite (isbn13_to_isbn10_wrong_prefix v1 n1 H1 P1) in R1.
      discriminate. }
  destruct (startswith n2 (lit "978")) eqn:P2.
  2:{ rewrite (isbn13_to_isbn10_wrong_prefix v2 n2 H2 P2) in R2.
      discriminate. }
  rewrite (isbn13_to_isbn10_value v1 n1 H1 E1 P1) in R1.
  rewrite (isbn13_to_isbn10_value v2 n2 H2 E2 P2) in R2.
  apply Ok_inj in R1, R2. rewrite <- R2 in R1.
  apply app_inj_tail in R1 as [F _].
  rewrite (firstn_12_978 n1 P1), (firstn_12_978 n2 P2), F. reflexivity.
Qed.

Lemma isbn13_to_isbn10_injective_witness :
  firstn 12 (lit "9780306406157") = firstn 12 (lit "9780306406153").
Proof.
  apply (isbn13_to_isbn10_injective
           (PyStr (lit "978-0-306-40615-7")) (PyStr (lit "9780306406153"))
           (lit "9780306406157") (lit "9780306406153") (lit "0306406152"));
    reflexivity.
Defined.

(* ================================================================= *)
(** * More on the provider clients *)
(* ================================================================= *)

Ltac unfold_lookup m :=
  destruct m as [[| | |] |]; cbn [call isbn_search_of];
  unfold OpenLibraryAPI.isbn_search, OpenLibraryAPI.author_search,
    GoogleBooksAPI.isbn_search, NDLAPI.isbn_search, OpenBDAPI.isbn_search.

(** X14: when the author key can be written as a string, [author_search]
    sends one request, to the base URL followed by the author key and
    [".json"]; it returns null when the request raises and when the status
    is not 200, the parsed body when the status is 200 and the body is JSON,
    and lets the exception of the parser through when it is not.  When
    [str] raises on the author key no request is sent: a verbose client
    raises that exception at its first log line, a quiet one returns
    null. *)
Theorem author_search_spec `{World} (self : client) (author_key : object) :
  let trace := fst (OpenLibraryAPI.author_search self author_key) in
  let returned := snd (OpenLibraryAPI.author_search self author_key) in
  match str_of author_key with
  | Ok s =>
      let r := {| Http.url := base_url self ++ s ++ lit ".json";
                  Http.params := [];
                  Http.timeout := timeout self |} in
      requests_sent trace = [r] /\ returned = answer OpenLibrary r
  | Raise e =>
      requests_sent trace = [] /\
      returned = if verbose self then Raise e else Ok None
  end.
Proof.
  cbv zeta. unfold OpenLibraryAPI.author_search.
  destruct (str_of author_key) as [s | e]; cbn [bind].
  - rewrite io_bind_logger_info_ok. cbn [fst snd]. split.
    + rewrite requests_sent_app, requests_sent_logged by reflexivity.
      apply get_and_parse_sends_once.
    + rewrite get_and_parse_returns. apply answer_json. discriminate.
  - rewrite io_bind_logger_info_raise, get_and_parse_raise.
    destruct (verbose self); split; reflexivity.
Qed.

(** X15: when the argument can be written as a string, the [verbose] flag
    changes the log and nothing else: two clients with the same base URL and
    timeout send the same request and return the same result, whichever of
    the five methods is called. *)
Theorem verbose_changes_the_log_only `{World} (m : lookup)
    (self1 self2 : client) (arg : object) (s : str) :
  str_of arg = Ok s ->
  base_url self1 = base_url self2 ->
  timeout self1 = timeout self2 ->
  requests_sent (fst (call m self1 arg)) =
    requests_sent (fst (call m self2 arg)) /\
  snd (call m self1 arg) = snd (call m self2 arg).
Proof.
  intros Es B T. unfold_lookup m; rewrite Es; cbn [bind];
    rewrite !io_bind_logger_info_ok, ?io_bind_eval_ok; cbn [fst snd];
    rewrite !requests_sent_app, !requests_sent_logged by reflexivity;
    cbn [app];
    rewrite !get_and_parse_sends_once, !get_and_parse_returns, B, T;
    split; reflexivity.
Qed.

Lemma verbose_changes_the_log_only_witness :
  let world := example_world (Http.Response 200 (lit "{}")) in
  let quiet := OpenLibraryAPI.init None None in
  let loud := OpenLibraryAPI.init None (Some true) in
  let arg := PyInt 9780306406157 in
  requests_sent (fst (call (isbn_search_at OpenLibrary) quiet arg)) =
    requests_sent (fst (call (isbn_search_at OpenLibrary) loud arg)) /\
  snd (call (isbn_search_at OpenLibrary) quiet arg) =
    snd (call (isbn_search_at OpenLibrary) loud arg).
Proof.
  cbv zeta.
  apply (@verbose_changes_the_log_only
           (example_world (Http.Response 200 (lit "{}")))
           (isbn_search_at OpenLibrary) _ _ _ (lit "9780306406157"));
    reflexivity.
Defined.

(** X16: when the argument can be written as a string, a client that is
    not verbose logs nothing, its trace is the request; a verbose client
    logs one line before the request and one line after it, whatever the
    outcome, for each of the five methods. *)
Theorem log_lines `{World} (m : lookup) (self : client) (arg : object)
    (s : str) :
  str_of arg = Ok s ->
  exists r,
    if verbose self then
      exists start final,
        fst (call m self arg) = [LoggerInfo start; Get r; final] /\
        is_logged final = true
    else fst (call m self arg) = [Get r].
Proof.
  intros Es. unfold_lookup m; rewrite Es; cbn [bind];
    rewrite io_bind_logger_info_ok, ?io_bind_eval_ok; cbn [fst snd];
    match goal with
    | |- context [get_and_parse _ (Ok ?r) ?p] =>
        exists r; pose proof (get_and_parse_trace self r p) as G
    end;
    (destruct (verbose self);
     [ destruct G as [final [G L]]; rewrite G;
       eexists; exists final; split; [reflexivity | exact L]
     | rewrite G; reflexivity ]).
Qed.

Lemma log_lines_witness :
  let world := example_world (Http.Response 404 (lit "")) in
  let self := GoogleBooksAPI.init None (Some true) in
  exists r start final,
    fst (call (isbn_search_at GoogleBooks) self (PyStr (lit "1"))) =
      [LoggerInfo start; Get r; final] /\
    is_logged final = true.
Proof.
  cbv zeta.
  destruct (@log_lines (example_world (Http.Response 404 (lit "")))
              (isbn_search_at GoogleBooks)
              (GoogleBooksAPI.init None (Some true))
              (PyStr (lit "1")) (lit "1") eq_refl) as [r G].
  exists r. exact G.
Defined.

Example author_search_found :
  let world := example_world (Http.Response 200 (lit "{}")) in
  let self := OpenLibraryAPI.init None (Some true) in
  OpenLibraryAPI.author_search self (PyStr (lit "/authors/OL1A")) =
  ([ LoggerInfo (lit "Searching for books by author: /authors/OL1A");
     Get {| Http.url := lit "https://openlibrary.org/authors/OL1A.json";
            Http.params := [];
            Http.timeout := 1 |};
     LoggerInfo (lit "Request succeeded") ],
   Ok (Some EmptyObject)).
Proof. reflexivity. Qed.
